(** * pagina.py: the chatbot of the Instituto 13 de Julio

    A shallow embedding of [src/pagina.py]: the knowledge loader, the
    keyword retriever and the Streamlit script [main], which is re-run
    from top to bottom on every interaction and keeps its transcript in
    [st.session_state.mensajes].

    Python values are modelled as follows.
    - [str] is a list of Unicode code points ([list N]); string literals
      of the source are written as Rocq literals and decoded from UTF-8
      by [py].
    - A [dict] read from JSON keeps insertion order and has no ranking,
      so it is an association list; [dict_get] is [dict.get].
    - Python [list] objects that the script mutates ([append], [extend])
      live in a store of objects, a [gmap] from locations to contents.
    - The script is a computation over a [World] (store and session
      state) that logs what it renders and sends, and may finish, be
      halted by [st.stop()], or be aborted by an uncaught exception. *)

From Stdlib Require Import String Ascii NArith.
From stdpp Require Import gmap list.

Local Open Scope N_scope.

(** ** Python strings *)

Abbreviation str := (list N).

(** UTF-8 decoding of a source literal into code points. *)
Fixpoint py (s : string) : str :=
  match s with
  | EmptyString => []
  | String a s1 =>
      let b0 := N_of_ascii a in
      if b0 <? 128 then b0 :: py s1
      else if b0 <? 224 then
        match s1 with
        | String b s2 =>
            ((b0 mod 32) * 64 + N_of_ascii b mod 64) :: py s2
        | _ => []
        end
      else if b0 <? 240 then
        match s1 with
        | String b (String c s3) =>
            ((b0 mod 16) * 4096 + (N_of_ascii b mod 64) * 64
             + N_of_ascii c mod 64) :: py s3
        | _ => []
        end
      else
        match s1 with
        | String b (String c (String d s4)) =>
            ((b0 mod 8) * 262144 + (N_of_ascii b mod 64) * 4096
             + (N_of_ascii c mod 64) * 64 + N_of_ascii d mod 64) :: py s4
        | _ => []
        end
  end.

(** The characters a Rocq literal cannot hold. *)
Definition NL : str := [10].   (* "\n" *)
Definition DQ : str := [34].   (* the double quote *)
Definition SQ : str := [39].   (* the single quote *)

(** [s.startswith(p)] and [p in s] on code points. *)
Fixpoint startswith (p s : str) : bool :=
  match p, s with
  | [], _ => true
  | _ :: _, [] => false
  | a :: p', b :: s' => (a =? b) && startswith p' s'
  end.

Fixpoint str_in (p s : str) : bool :=
  startswith p s
  || match s with
     | [] => false
     | _ :: s' => str_in p s'
     end.

(** Truth value of a string: [if s:] holds exactly when [s] is not empty. *)
Definition truthy (s : str) : bool :=
  match s with
  | [] => false
  | _ :: _ => true
  end.

(** [x] occurs in [s] as a contiguous run of characters. *)
Definition occurs_in (x s : str) : Prop :=
  ∃ pre post, s = pre ++ x ++ post.

(** [str.lower] on the Latin-1 range: the capital letters A-Z and
    U+00C0-U+00DE (the multiplication sign U+00D7 apart) move 32 code
    points up, every other code point below U+0100 is kept.  Code points
    from U+0100 on are kept too, which is not what CPython does for the
    cased letters there; the concrete examples below stay within Latin-1.
    The general theorems do not use this function: they hold for any
    lowercasing function (see [Section Retriever]). *)
Definition lower_char (c : N) : N :=
  if (65 <=? c) && (c <=? 90) then c + 32
  else if (192 <=? c) && (c <=? 222) && negb (c =? 215) then c + 32
  else c.

Definition lower_latin1 (s : str) : str := map lower_char s.

(** ** The knowledge base *)

(** A JSON object of keyword -> text, in the order of the file. *)
Abbreviation dict := (list (str * str)).

(** [d.get(k)], [None] when the key is absent. *)
Fixpoint dict_get (k : str) (d : dict) : option str :=
  match d with
  | [] => None
  | (k', v) :: d' => if decide (k = k') then Some v else dict_get k d'
  end.

(** [f"- {content}\n"] *)
Definition linea (content : str) : str := py "- " ++ content ++ NL.

Definition SIN_CONTEXTO : str := py "No se encontró contexto específico.".

Section Retriever.

(** [str.lower] is a builtin whose Unicode case tables are not part of
    the repository; the retriever is stated over any such function. *)
Variable lower : str → str.

(** The loop of lines 54-57: one pass over [items()], appending to the
    accumulator. *)
Definition acumular (query_lower : str) (kb : dict) : str :=
  fold_left
    (λ contexto_encontrado '(keyword, content),
       if str_in keyword query_lower
       then contexto_encontrado ++ linea content
       else contexto_encontrado)
    kb [].

Definition buscar_contexto_relevante
    (query : str) (base_de_conocimiento : option dict) : str :=
  match base_de_conocimiento with
  | None => py "Error: la base de conocimientos no está disponible."
  | Some kb =>
      let query_lower := lower query in
      let contexto_encontrado := acumular query_lower kb in
      if negb (truthy contexto_encontrado)
      then default SIN_CONTEXTO (dict_get (py "instituto") kb)
      else contexto_encontrado
  end.

End Retriever.

Local Close Scope N_scope.

(** ** Messages, models and requests *)

Inductive Role := system | user | assistant.

#[global] Instance Role_eq_dec : EqDecision Role.
Proof. solve_decision. Defined.

(** A chat message, [{"role": ..., "content": ...}]. *)
Record Message := { role : Role; content : str }.

Inductive Modelo := llama3_8b_8192 | llama3_70b_8192 | mixtral_8x7b_32768.

Definition MODELOS : list Modelo :=
  [llama3_8b_8192; llama3_70b_8192; mixtral_8x7b_32768].

Definition SYSTEM_PROMPT : str :=
  NL
  ++ py "Eres un asistente virtual experto del " ++ DQ
  ++ py "Instituto 13 de Julio" ++ DQ ++ py "." ++ NL
  ++ py "Tu nombre es " ++ DQ ++ py "TecnoBot" ++ DQ
  ++ py ". Eres amable, servicial y extremadamente eficiente." ++ NL
  ++ py "Tu única función es responder preguntas relacionadas con el instituto." ++ NL
  ++ py "Basa tus respuestas estrictamente en el CONTEXTO RELEVANTE que se te proporciona." ++ NL
  ++ py "Si la pregunta del usuario no tiene que ver con el instituto o el contexto provisto," ++ NL
  ++ py "responde amablemente que no puedes ayudar con ese tema, ya que tu especialidad es el instituto." ++ NL
  ++ py "No inventes información. Si no sabes la respuesta, di que no tienes esa información y que" ++ NL
  ++ py "sugieres contactar a la secretaría." ++ NL
  ++ py "Siempre preséntate como " ++ DQ ++ py "TecnoBot" ++ DQ
  ++ py " en tu primer saludo." ++ NL.

(** The keyword arguments of [chat.completions.create]. *)
Record Request := {
  model : Modelo;
  messages : list Message;
  temperature : QArith_base.Q;
  max_tokens : Z;
}.

(** ** Exceptions and the outside world *)

(** The classes of exception the script tells apart, and an exception:
    its class and its text, [str(e)]. *)
Inductive ExnClass :=
| FileNotFoundError
| JSONDecodeError
| OtherException.

Record Exn := { class : ExnClass; exn_str : str }.

(** What a call into a library gives back. *)
Inductive Reply (A : Type) :=
| raises (e : Exn)
| returns (a : A).
Arguments raises {A} e.
Arguments returns {A} a.

(** The client object built from the API key. *)
Record Groq := { api_key : str }.

(** Everything one run of the script reads from outside: the knowledge
    file ([open] followed by [json.load]; a JSON [null] parses to
    [None]), the secret, the widgets, and the completion endpoint
    ([respuesta.choices[0].message.content], which may be [None]). *)
Record Env := {
  json_load : str → Reply (option dict);
  secrets_GROQ_API_KEY : option str;
  selectbox : Modelo;
  chat_input : option str;
  completions_create : Groq → Request → Reply (option str);
}.

(** What one run renders and sends, in order. *)
Inductive Event :=
| title (s : str)
| write (s : str)
| header (s : str)
| info (s : str)
| error (s : str)
| chat_message (name : Role) (avatar : str)
| markdown (s : str)
| spinner (s : str)
| api_call (cliente : Groq) (req : Request).

(** ** The script as a computation *)

(** The state that survives a run: the store of Python [list] objects
    and [st.session_state.mensajes], a reference into it once set. *)
Record World := {
  heap : gmap positive (list Message);
  mensajes : option positive;
}.

Inductive Outcome (A : Type) :=
| Ret (a : A)          (* ran to the end *)
| Stop                 (* [st.stop()] *)
| Raise (e : Exn).     (* uncaught exception *)
Arguments Ret {A} a.
Arguments Stop {A}.
Arguments Raise {A} e.

Definition M (A : Type) : Type := World → Outcome A * World * list Event.

#[global] Instance M_ret : MRet M := λ A a w, (Ret a, w, []).

#[global] Instance M_bind : MBind M := λ A B k m w,
  match m w with
  | (Ret a, w1, ev1) => let '(o, w2, ev2) := k a w1 in (o, w2, ev1 ++ ev2)
  | (Stop, w1, ev1) => (Stop, w1, ev1)
  | (Raise e, w1, ev1) => (Raise e, w1, ev1)
  end.

Definition raise {A} (e : Exn) : M A := λ w, (Raise e, w, []).

Definition st_stop {A} : M A := λ w, (Stop, w, []).

Definition emit (evs : list Event) : M unit := λ w, (Ret tt, w, evs).

(** [try: m  except Exception as e: h e]; [st.stop()] is not an
    [Exception] and passes through. *)
Definition try_except {A} (m : M A) (h : Exn → M A) : M A := λ w,
  match m w with
  | (Raise e, w1, ev1) => let '(o, w2, ev2) := h e w1 in (o, w2, ev1 ++ ev2)
  | r => r
  end.

(** A library call that returns or raises. *)
Definition call {A} (r : Reply A) : M A :=
  match r with
  | raises e => raise e
  | returns a => mret a
  end.

(** *** Python list objects *)

Definition list_new (l : list Message) : M positive := λ w,
  let ℓ := fresh (dom (heap w)) in
  (Ret ℓ, {| heap := <[ℓ := l]> (heap w); mensajes := mensajes w |}, []).

(** Reading through a reference; a reference to no object does not
    arise in a well-formed world ([wf] below). *)
Definition list_get (ℓ : positive) : M (list Message) := λ w,
  match heap w !! ℓ with
  | Some l => (Ret l, w, [])
  | None =>
      (Raise {| class := OtherException; exn_str := py "ReferenceError" |}, w, [])
  end.

Definition list_set (ℓ : positive) (l : list Message) : M unit := λ w,
  (Ret tt, {| heap := <[ℓ := l]> (heap w); mensajes := mensajes w |}, []).

(** [ℓ.append(m)] and [ℓ.extend(ms)]: in place. *)
Definition list_extend (ℓ : positive) (ms : list Message) : M unit :=
  l ← list_get ℓ; list_set ℓ (l ++ ms).

Definition list_append (ℓ : positive) (m : Message) : M unit :=
  list_extend ℓ [m].

(** [l[-n:]] for [n] from 1 on: the last [n] elements, all of [l] when
    it is shorter. *)
Definition slice_last {A} (n : nat) (l : list A) : list A :=
  drop (length l - n) l.

(** [for x in l: body x] *)
Fixpoint for_each {A} (l : list A) (body : A → M unit) : M unit :=
  match l with
  | [] => mret tt
  | x :: l' => body x;; for_each l' body
  end.

(** *** Session state *)

Definition session_mensajes : M (option positive) := λ w,
  (Ret (mensajes w), w, []).

Definition session_set_mensajes (ℓ : positive) : M unit := λ w,
  (Ret tt, {| heap := heap w; mensajes := Some ℓ |}, []).

(** ** The functions of pagina.py *)

Definition RUTA_ARCHIVO : str := py "conocimiento.json".

(** The two messages of the loader (lines 40 and 43). *)
Definition NO_ENCONTRADO (ruta_archivo : str) : str :=
  py "Error Crítico: No se encontró el archivo " ++ SQ ++ ruta_archivo ++ SQ
  ++ py ". Asegúrate de que exista en la misma carpeta que este script.".

Definition JSON_INVALIDO (ruta_archivo : str) : str :=
  py "Error Crítico: El archivo " ++ SQ ++ ruta_archivo ++ SQ
  ++ py " no tiene un formato JSON válido.".

Definition cargar_base_de_conocimiento
    (env : Env) (ruta_archivo : str) : M (option dict) :=
  try_except
    (call (json_load env ruta_archivo))
    (λ e,
       match class e with
       | FileNotFoundError =>
           emit [error (NO_ENCONTRADO ruta_archivo)];;
           mret None
       | JSONDecodeError =>
           emit [error (JSON_INVALIDO ruta_archivo)];;
           mret None
       | OtherException => raise e
       end).

(** Lines 69-74: the request for a chat history. *)
Definition peticion (modelo_seleccionado : Modelo) (historial_chat : list Message)
    : Request :=
  {| model := modelo_seleccionado;
     messages := historial_chat;
     temperature := QArith_base.Qmake 7 10;
     max_tokens := 1024 |}.

Definition generar_respuesta_modelo
    (env : Env) (cliente_groq : Groq) (modelo_seleccionado : Modelo)
    (historial_chat : positive) : M (option str) :=
  try_except
    (msgs ← list_get historial_chat;
     let req := peticion modelo_seleccionado msgs in
     emit [api_call cliente_groq req];;
     call (completions_create env cliente_groq req))
    (λ e,
       emit [error (py "Ocurrió un error al contactar la API de Groq: "
                    ++ exn_str e)];;
       mret None).

Definition SALUDO : Message :=
  {| role := assistant;
     content := py "¡Hola! Soy TecnoBot, el asistente virtual del Instituto 13 de Julio. ¿En qué puedo ayudarte?" |}.

Definition AVATAR_USER : str := py "🧑‍💻".
Definition AVATAR_BOT : str := py "🤖".

(** Line 125: the system prompt with the retrieved context. *)
Definition prompt_con_contexto (contexto_rag : str) : str :=
  SYSTEM_PROMPT
  ++ NL ++ NL
  ++ py "Usa el siguiente CONTEXTO RELEVANTE para formular tu respuesta:"
  ++ NL ++ contexto_rag.

(** [msg['role'] != 'system'] *)
Definition no_system (msg : Message) : Prop := role msg ≠ system.

#[global] Instance no_system_dec (msg : Message) : Decision (no_system msg).
Proof. unfold no_system. apply _. Defined.

Definition SIN_API_KEY : str :=
  py "API Key de Groq no configurada. Ve a 'Settings > Secrets' y añade tu clave.".

(** What every run draws first (lines 83-84, 91 and 103). *)
Definition CABECERA : list Event :=
  [title (py "🎓 Chatbot del Instituto 13 de Julio");
   write (py "Tu asistente virtual para consultas sobre el instituto.")].

Definition INFO : Event :=
  info (py "Este chatbot recuerda la conversación actual para dar respuestas más coherentes.").

Section Script.

Variable lower : str → str.

(** Lines 98-102: the client, or an error and a halt. *)
Definition crear_cliente (env : Env) : M Groq :=
  match secrets_GROQ_API_KEY env with
  | Some k => mret {| api_key := k |}
  | None => emit [error SIN_API_KEY];; st_stop
  end.

(** Lines 105-108: the transcript is created on the first run only. *)
Definition iniciar_mensajes : M positive :=
  s ← session_mensajes;
  match s with
  | Some ℓ => mret ℓ
  | None => ℓ ← list_new [SALUDO]; session_set_mensajes ℓ;; mret ℓ
  end.

(** Lines 110-113: the transcript is drawn, message by message. *)
Definition dibujar (mensaje : Message) : list Event :=
  let avatar := if decide (role mensaje = user)
                then AVATAR_USER else AVATAR_BOT in
  [chat_message (role mensaje) avatar; markdown (content mensaje)].

Definition mostrar_mensajes (ℓ : positive) : M unit :=
  msgs ← list_get ℓ; for_each msgs (λ mensaje, emit (dibujar mensaje)).

(** Lines 128-132: the list sent to the endpoint, a new object. *)
Definition preparar_historial
    (ℓ : positive) (system_prompt_con_contexto : str) : M positive :=
  historial_para_api ←
    list_new [{| role := system; content := system_prompt_con_contexto |}];
  msgs ← list_get ℓ;
  let mensajes_relevantes := filter no_system msgs in
  list_extend historial_para_api (slice_last 10 mensajes_relevantes);;
  mret historial_para_api.

(** Lines 116-140: one submitted question. *)
Definition turno
    (env : Env) (base_de_conocimiento : option dict) (cliente_groq : Groq)
    (modelo_seleccionado : Modelo) (ℓ : positive) (prompt_usuario : str)
    : M unit :=
  list_append ℓ {| role := user; content := prompt_usuario |};;
  emit [chat_message user AVATAR_USER; markdown prompt_usuario];;
  let contexto_rag :=
    buscar_contexto_relevante lower prompt_usuario base_de_conocimiento in
  let system_prompt_con_contexto := prompt_con_contexto contexto_rag in
  historial_para_api ← preparar_historial ℓ system_prompt_con_contexto;
  emit [chat_message assistant AVATAR_BOT;
        spinner (py "TecnoBot está pensando...")];;
  respuesta_bot ←
    generar_respuesta_modelo env cliente_groq modelo_seleccionado
                             historial_para_api;
  match respuesta_bot with
  | Some r =>
      if truthy r then
        emit [markdown r];;
        list_append ℓ {| role := assistant; content := r |}
      else mret tt
  | None => mret tt
  end.

Definition main (env : Env) : M unit :=
  emit CABECERA;;
  base_de_conocimiento ← cargar_base_de_conocimiento env RUTA_ARCHIVO;
  match base_de_conocimiento with
  | None => st_stop
  | Some _ => mret tt
  end;;
  emit [header (py "Configuración")];;
  let modelo_seleccionado := selectbox env in
  cliente_groq ← crear_cliente env;
  emit [INFO];;
  ℓ ← iniciar_mensajes;
  mostrar_mensajes ℓ;;
  match chat_input env with
  | Some prompt_usuario =>
      if truthy prompt_usuario
      then turno env base_de_conocimiento cliente_groq modelo_seleccionado
                 ℓ prompt_usuario
      else mret tt
  | None => mret tt
  end.

End Script.

(** ** Vocabulary of the statements *)

(** The transcript held in the session state, if there is one. *)
Definition stored (w : World) : option (list Message) :=
  ℓ ← mensajes w; heap w !! ℓ.

(** The transcript a run starts from: the stored one, or the greeting
    alone on the first run of a session. *)
Definition inicial (w : World) : list Message := default [SALUDO] (stored w).

(** The reference in the session state points to a list object. *)
Definition wf (w : World) : Prop :=
  ∀ ℓ, mensajes w = Some ℓ → is_Some (heap w !! ℓ).

(** A brand new session. *)
Definition nuevo : World := {| heap := ∅; mensajes := None |}.

(** The worlds a session can be in: any number of runs of the script,
    each with its own surroundings, from a brand new session. *)
Inductive reachable (lower : str → str) : World → Prop :=
| reachable_nuevo : reachable lower nuevo
| reachable_run w env o w' ev :
    reachable lower w →
    main lower env w = (o, w', ev) →
    reachable lower w'.

(** The history that lines 128-132 build for a question, from the
    transcript that already holds the question. *)
Definition historial
    (lower : str → str) (base_de_conocimiento : option dict)
    (prompt_usuario : str) (msgs : list Message) : list Message :=
  {| role := system;
     content := prompt_con_contexto
                  (buscar_contexto_relevante lower prompt_usuario
                     base_de_conocimiento) |}
  :: slice_last 10 (filter no_system msgs).

(** The two roles the script itself writes into the transcript. *)
Definition user_o_assistant (msg : Message) : Prop :=
  role msg = user ∨ role msg = assistant.

(** The events of a run that are calls to the endpoint. *)
Definition api_calls (ev : list Event) : list Request :=
  omap (λ e, match e with api_call _ req => Some req | _ => None end) ev.

(** ** Example data *)

(** The knowledge file of the specification's example. *)
Definition kb_ejemplo : dict :=
  [(py "horario", py "Clases de 8 a 18hs.");
   (py "instituto", py "Instituto 13 de Julio, fundado en 1950.")].

(** A knowledge file whose only keyword has a capital letter. *)
Definition kb_mayuscula : dict := [(py "Horario", py "X")].

(** A knowledge file that holds the empty keyword. *)
Definition kb_vacia : dict :=
  [(py "horario", py "Clases de 8 a 18hs."); ([], py "General")].

(** A session whose transcript holds the greeting and six exchanges. *)
Definition pregunta (n : N) : Message :=
  {| role := user; content := py "pregunta " ++ [48 + n]%N |}.

Definition respuesta (n : N) : Message :=
  {| role := assistant; content := py "respuesta " ++ [48 + n]%N |}.

Definition mensajes_ejemplo : list Message :=
  SALUDO :: concat (map (λ n, [pregunta n; respuesta n]) [1; 2; 3; 4; 5; 6]%N).

Definition w_ejemplo : World :=
  {| heap := {[ 1%positive := mensajes_ejemplo ]}; mensajes := Some 1%positive |}.

(** Surroundings with the knowledge file and the key in place, the
    question "hola", and an endpoint that answers as given. *)
Definition env_con (reply : Reply (option str)) : Env :=
  {| json_load := λ _, returns (Some kb_ejemplo);
     secrets_GROQ_API_KEY := Some (py "gsk");
     selectbox := llama3_70b_8192;
     chat_input := Some (py "hola");
     completions_create := λ _ _, reply |}.

Definition TIMEOUT : Exn :=
  {| class := OtherException; exn_str := py "Request timed out." |}.

Definition env_falla : Env := env_con (raises TIMEOUT).
Definition env_responde : Env := env_con (returns (Some (py "Buenas."))).
Definition env_responde_vacio : Env := env_con (returns (Some [])).

(** Surroundings without the knowledge file. *)
Definition env_sin_archivo : Env :=
  {| json_load := λ _, raises {| class := FileNotFoundError;
                                 exn_str := py "[Errno 2] No such file or directory: "
                                            ++ SQ ++ py "conocimiento.json" ++ SQ |};
     secrets_GROQ_API_KEY := Some (py "gsk");
     selectbox := llama3_70b_8192;
     chat_input := Some (py "hola");
     completions_create := λ _ _, returns (Some (py "Buenas.")) |}.

(** The error messages a run shows. *)
Definition errores (ev : list Event) : list str :=
  omap (λ e, match e with error s => Some s | _ => None end) ev.

(** A pair of the mapping whose keyword is found in a lowercased query. *)
Definition coincide (query_lower : str) (kv : str * str) : Prop :=
  str_in kv.1 query_lower = true.

#[global] Instance coincide_dec (query_lower : str) (kv : str * str) :
  Decision (coincide query_lower kv).
Proof. unfold coincide. apply _. Defined.

(** Surroundings in good order but for one thing each. *)
Definition env_sin_clave : Env :=
  {| json_load := λ _, returns (Some kb_ejemplo);
     secrets_GROQ_API_KEY := None;
     selectbox := llama3_70b_8192;
     chat_input := Some (py "hola");
     completions_create := λ _ _, returns (Some (py "Buenas.")) |}.

Definition env_json_null : Env :=
  {| json_load := λ _, returns None;
     secrets_GROQ_API_KEY := Some (py "gsk");
     selectbox := llama3_70b_8192;
     chat_input := Some (py "hola");
     completions_create := λ _ _, returns (Some (py "Buenas.")) |}.

Definition PERMISO : Exn :=
  {| class := OtherException;
     exn_str := py "[Errno 13] Permission denied: " ++ SQ
                ++ py "conocimiento.json" ++ SQ |}.

Definition env_sin_permiso : Env :=
  {| json_load := λ _, raises PERMISO;
     secrets_GROQ_API_KEY := Some (py "gsk");
     selectbox := llama3_70b_8192;
     chat_input := Some (py "hola");
     completions_create := λ _ _, returns (Some (py "Buenas.")) |}.

Definition env_sin_pregunta : Env :=
  {| json_load := λ _, returns (Some kb_ejemplo);
     secrets_GROQ_API_KEY := Some (py "gsk");
     selectbox := llama3_70b_8192;
     chat_input := None;
     completions_create := λ _ _, returns (Some (py "Buenas.")) |}.

(** * Strings *)

Lemma startswith_spec (p s : str) :
  startswith p s = true ↔ ∃ post, s = p ++ post.
Proof.
  revert s. induction p as [|a p IH]; intros s; simpl.
  - split; [intros _; by exists s | done].
  - destruct s as [|b s].
    + split; [done | intros [post H]; discriminate H].
    + rewrite andb_true_iff, N.eqb_eq, IH. split.
      * intros [-> [post ->]]. by exists post.
      * intros [post H]. injection H as -> ->. eauto.
Qed.

Lemma str_in_spec (p s : str) : str_in p s = true ↔ occurs_in p s.
Proof.
  unfold occurs_in. induction s as [|b s IH]; simpl.
  - rewrite orb_false_r, startswith_spec. split.
    + intros [post H]. by exists [], post.
    + intros [pre [post H]]. destruct pre; [by exists post | discriminate H].
  - rewrite orb_true_iff, startswith_spec, IH. split.
    + intros [[post H] | [pre [post H]]].
      * by exists [], post.
      * exists (b :: pre), post. by rewrite H.
    + intros [[|c pre] [post H]].
      * left. by exists post.
      * right. injection H as -> ->. by exists pre, post.
Qed.

Lemma str_in_false (p s : str) : str_in p s = false ↔ ¬ occurs_in p s.
Proof. rewrite <- str_in_spec. by destruct (str_in p s). Qed.

Lemma occurs_in_app_l (x a b : str) : occurs_in x a → occurs_in x (a ++ b).
Proof.
  intros [pre [post ->]]. exists pre, (post ++ b). by rewrite <- !app_assoc.
Qed.

Lemma occurs_in_app_r (x a b : str) : occurs_in x b → occurs_in x (a ++ b).
Proof.
  intros [pre [post ->]]. exists (a ++ pre), post. by rewrite <- !app_assoc.
Qed.

Lemma occurs_in_linea (text : str) : occurs_in text (linea text).
Proof. by exists (py "- "), NL. Qed.

Lemma occurs_in_trans (x y z : str) :
  occurs_in x y → occurs_in y z → occurs_in x z.
Proof.
  intros [p1 [q1 ->]] [p2 [q2 ->]]. exists (p2 ++ p1), (q1 ++ q2).
  by rewrite <- !app_assoc.
Qed.

Lemma truthy_linea (text : str) : truthy (linea text) = true.
Proof. reflexivity. Qed.

Lemma truthy_app_r (a b : str) : truthy b = true → truthy (a ++ b) = true.
Proof. destruct a, b; simpl; done. Qed.

Lemma truthy_app_l (a b : str) : truthy a = true → truthy (a ++ b) = true.
Proof. destruct a; simpl; done. Qed.

(** * The retriever *)

Lemma dict_get_Some (k v : str) (d : dict) :
  NoDup d.*1 → (k, v) ∈ d → dict_get k d = Some v.
Proof.
  induction d as [|[k' v'] d IH]; simpl; intros Hnd Hin.
  - by apply elem_of_nil in Hin.
  - apply NoDup_cons in Hnd as [Hk' Hnd].
    apply elem_of_cons in Hin as [Heq | Hin].
    + injection Heq as -> ->. by rewrite decide_True.
    + rewrite decide_False; [by apply IH |].
      intros ->. apply Hk'. apply list_elem_of_fmap. by exists (k', v).
Qed.

Lemma dict_get_None (k : str) (d : dict) : k ∉ d.*1 → dict_get k d = None.
Proof.
  induction d as [|[k' v'] d IH]; simpl; intros Hk; [done |].
  apply not_elem_of_cons in Hk as [Hne Hk]. by rewrite decide_False; [apply IH |].
Qed.

(** The loop of [acumular] started from any accumulator only appends. *)
Lemma acumular_desde (q : str) (kb : dict) (acc : str) :
  fold_left
    (λ contexto_encontrado '(keyword, content),
       if str_in keyword q
       then contexto_encontrado ++ linea content
       else contexto_encontrado)
    kb acc
  = acc ++ acumular q kb.
Proof.
  unfold acumular. revert acc.
  induction kb as [|[k t] kb IH]; intros acc; simpl.
  - by rewrite app_nil_r.
  - rewrite IH. rewrite (IH (if str_in k q then _ else _)).
    destruct (str_in k q); [by rewrite <- app_assoc | done].
Qed.

Lemma acumular_cons (q k t : str) (kb : dict) :
  acumular q ((k, t) :: kb)
  = (if str_in k q then linea t else []) ++ acumular q kb.
Proof.
  unfold acumular at 1. simpl. rewrite acumular_desde.
  by destruct (str_in k q).
Qed.

Lemma acumular_app (q : str) (l1 l2 : dict) :
  acumular q (l1 ++ l2) = acumular q l1 ++ acumular q l2.
Proof.
  induction l1 as [|[k t] l1 IH]; [done |].
  simpl. by rewrite !acumular_cons, IH, app_assoc.
Qed.

(** Every matching pair leaves its line in the accumulator. *)
Lemma acumular_occurs (q k t : str) (kb : dict) :
  (k, t) ∈ kb → str_in k q = true → occurs_in (linea t) (acumular q kb).
Proof.
  intros Hin Hk. apply list_elem_of_split in Hin as [l1 [l2 ->]].
  rewrite acumular_app, acumular_cons, Hk.
  by exists (acumular q l1), (acumular q l2).
Qed.

(** Without a match the accumulator stays empty. *)
Lemma acumular_sin_coincidencias (q : str) (kb : dict) :
  (∀ k t, (k, t) ∈ kb → str_in k q = false) → acumular q kb = [].
Proof.
  induction kb as [|[k t] kb IH]; intros H; [done |].
  rewrite acumular_cons, (H k t) by apply list_elem_of_here.
  apply IH. intros k' t' Hin. apply (H k' t'). by apply list_elem_of_further.
Qed.

Lemma truthy_occurs_linea (t s : str) : occurs_in (linea t) s → truthy s = true.
Proof.
  intros [pre [post ->]]. apply truthy_app_r, truthy_app_l, truthy_linea.
Qed.

(** With a match the retriever returns the accumulator itself. *)
Lemma buscar_con_coincidencia (lower : str → str) (query k t : str) (kb : dict) :
  (k, t) ∈ kb → str_in k (lower query) = true →
  buscar_contexto_relevante lower query (Some kb) = acumular (lower query) kb.
Proof.
  intros Hin Hk. unfold buscar_contexto_relevante.
  by rewrite (truthy_occurs_linea t _ (acumular_occurs _ _ _ _ Hin Hk)).
Qed.

(** A keyword that lowercasing leaves as it is and that occurs in the
    query as typed also occurs in the lowercased query, when lowercasing
    works character by character. *)
Lemma keyword_en_minusculas (f : N → N) (query keyword : str) :
  map f keyword = keyword →
  occurs_in keyword query →
  occurs_in keyword (map f query).
Proof.
  intros Hk [pre [post ->]]. exists (map f pre), (map f post).
  by rewrite !map_app, Hk.
Qed.

(** C1 as the specification words it fails: the keyword is looked for in
    the lowercased query, so a stored keyword with a capital letter that
    occurs in the query as typed is not found, and its text is absent
    from the result. *)
Lemma C1_capital_keyword_not_found :
  (py "Horario", py "X") ∈ kb_mayuscula
  ∧ occurs_in (py "Horario") (py "Horario")
  ∧ ¬ occurs_in (py "X")
        (buscar_contexto_relevante lower_latin1 (py "Horario")
           (Some kb_mayuscula)).
Proof.
  split; [apply list_elem_of_here |].
  split; [by exists [], [] |].
  apply str_in_false. vm_compute. reflexivity.
Qed.

(** C1 (amended): whenever a stored keyword is a substring of the
    lowercased query, the retrieved context includes the line
    ["- {text}\n"] of that keyword, and so its text. *)
Theorem C1_retrieved_context_includes_text
    (lower : str → str) (query : str) (kb : dict) (keyword text : str) :
  (keyword, text) ∈ kb →
  occurs_in keyword (lower query) →
  occurs_in (linea text) (buscar_contexto_relevante lower query (Some kb))
  ∧ occurs_in text (buscar_contexto_relevante lower query (Some kb)).
Proof.
  intros Hin Hk. apply str_in_spec in Hk.
  rewrite (buscar_con_coincidencia lower query keyword text kb Hin Hk).
  pose proof (acumular_occurs _ _ _ _ Hin Hk) as Hl.
  split; [done |]. exact (occurs_in_trans _ _ _ (occurs_in_linea text) Hl).
Qed.

Lemma C1_retrieved_context_includes_text_witness :
  occurs_in (linea (py "Clases de 8 a 18hs."))
    (buscar_contexto_relevante lower_latin1 (py "¿Cuál es el HORARIO?")
       (Some kb_ejemplo))
  ∧ occurs_in (py "Clases de 8 a 18hs.")
      (buscar_contexto_relevante lower_latin1 (py "¿Cuál es el HORARIO?")
         (Some kb_ejemplo)).
Proof.
  apply (C1_retrieved_context_includes_text lower_latin1
           (py "¿Cuál es el HORARIO?") kb_ejemplo (py "horario")).
  - apply list_elem_of_here.
  - apply str_in_spec. vm_compute. reflexivity.
Defined.

(** Without a match the retriever answers with [get("instituto", ...)]. *)
Lemma buscar_sin_coincidencias (lower : str → str) (query : str) (kb : dict) :
  (∀ keyword text, (keyword, text) ∈ kb → ¬ occurs_in keyword (lower query)) →
  buscar_contexto_relevante lower query (Some kb)
  = default SIN_CONTEXTO (dict_get (py "instituto") kb).
Proof.
  intros H. unfold buscar_contexto_relevante.
  rewrite acumular_sin_coincidencias; [done |].
  intros k t Hin. apply str_in_false. by apply (H k t).
Qed.

(** C2: when no stored keyword occurs in the lowercased query, the
    retriever returns the text stored under ["instituto"], and the fixed
    string "No se encontró contexto específico." when the mapping has no
    such key. *)
Theorem C2_fallback_when_nothing_matches
    (lower : str → str) (query : str) (kb : dict) :
  NoDup kb.*1 →
  (∀ keyword text, (keyword, text) ∈ kb → ¬ occurs_in keyword (lower query)) →
  (∀ text, (py "instituto", text) ∈ kb →
     buscar_contexto_relevante lower query (Some kb) = text)
  ∧ (py "instituto" ∉ kb.*1 →
     buscar_contexto_relevante lower query (Some kb) = SIN_CONTEXTO).
Proof.
  intros Hnd Hno. rewrite (buscar_sin_coincidencias lower query kb Hno). split.
  - intros text Hin. by rewrite (dict_get_Some _ _ _ Hnd Hin).
  - intros Hnot. by rewrite (dict_get_None _ _ Hnot).
Qed.

Lemma C2_fallback_when_nothing_matches_witness :
  (∀ text, (py "instituto", text) ∈ kb_ejemplo →
     buscar_contexto_relevante lower_latin1 (py "¿Dónde está?")
       (Some kb_ejemplo) = text)
  ∧ (py "instituto" ∉ kb_ejemplo.*1 →
     buscar_contexto_relevante lower_latin1 (py "¿Dónde está?")
       (Some kb_ejemplo) = SIN_CONTEXTO).
Proof.
  apply (C2_fallback_when_nothing_matches lower_latin1 (py "¿Dónde está?")
           kb_ejemplo).
  - apply (bool_decide_unpack _). vm_compute. exact I.
  - intros keyword text Hin. apply str_in_false.
    apply elem_of_cons in Hin as [Heq | Hin].
    { injection Heq as -> ->. vm_compute. reflexivity. }
    apply elem_of_cons in Hin as [Heq | Hin].
    { injection Heq as -> ->. vm_compute. reflexivity. }
    by apply elem_of_nil in Hin.
Defined.

(** C3: when [K1] stands before [K2] in the mapping and both occur in
    the lowercased query, the result is the lines of the matches before
    [K1], then ["- {text1}\\n"], then the lines of the matches between
    the two, then ["- {text2}\\n"], then the rest: mapping order, whatever
    the places of [K1] and [K2] in the query. *)
Theorem C3_mapping_order
    (lower : str → str) (query : str) (l1 l2 l3 : dict) (K1 text1 K2 text2 : str) :
  occurs_in K1 (lower query) →
  occurs_in K2 (lower query) →
  buscar_contexto_relevante lower query
    (Some (l1 ++ (K1, text1) :: l2 ++ (K2, text2) :: l3))
  = acumular (lower query) l1 ++ linea text1
    ++ acumular (lower query) l2 ++ linea text2
    ++ acumular (lower query) l3.
Proof.
  intros H1 H2. apply str_in_spec in H1, H2.
  rewrite (buscar_con_coincidencia lower query K1 text1).
  - by rewrite acumular_app, acumular_cons, H1, acumular_app, acumular_cons, H2.
  - apply elem_of_app. right. apply list_elem_of_here.
  - done.
Qed.

Lemma C3_mapping_order_witness :
  buscar_contexto_relevante lower_latin1 (py "instituto: horario")
    (Some ([] ++ (py "horario", py "Clases de 8 a 18hs.")
            :: [] ++ (py "instituto", py "Instituto 13 de Julio, fundado en 1950.")
            :: []))
  = acumular (lower_latin1 (py "instituto: horario")) []
    ++ linea (py "Clases de 8 a 18hs.")
    ++ acumular (lower_latin1 (py "instituto: horario")) []
    ++ linea (py "Instituto 13 de Julio, fundado en 1950.")
    ++ acumular (lower_latin1 (py "instituto: horario")) [].
Proof.
  apply (C3_mapping_order lower_latin1 (py "instituto: horario") [] [] []).
  - apply str_in_spec. vm_compute. reflexivity.
  - apply str_in_spec. vm_compute. reflexivity.
Defined.

(** C9: with the empty string among the keywords, every query matches
    it: the retriever returns the accumulator, which is not empty and
    holds the line of that key, and never the fallback. *)
Theorem C9_empty_keyword_always_matches
    (lower : str → str) (query : str) (kb : dict) (text : str) :
  ([], text) ∈ kb →
  buscar_contexto_relevante lower query (Some kb) = acumular (lower query) kb
  ∧ truthy (acumular (lower query) kb) = true
  ∧ occurs_in (linea text) (buscar_contexto_relevante lower query (Some kb)).
Proof.
  intros Hin.
  assert (str_in [] (lower query) = true) as Hk by by destruct (lower query).
  pose proof (acumular_occurs _ _ _ _ Hin Hk) as Hl.
  rewrite (buscar_con_coincidencia lower query [] text kb Hin Hk).
  split; [done |]. split; [by apply (truthy_occurs_linea text) | done].
Qed.

Lemma C9_empty_keyword_always_matches_witness :
  buscar_contexto_relevante lower_latin1 (py "¿Dónde está?") (Some kb_vacia)
  = acumular (lower_latin1 (py "¿Dónde está?")) kb_vacia
  ∧ truthy (acumular (lower_latin1 (py "¿Dónde está?")) kb_vacia) = true
  ∧ occurs_in (linea (py "General"))
      (buscar_contexto_relevante lower_latin1 (py "¿Dónde está?")
         (Some kb_vacia)).
Proof.
  apply (C9_empty_keyword_always_matches lower_latin1 (py "¿Dónde está?")
           kb_vacia (py "General")).
  apply list_elem_of_further, list_elem_of_here.
Defined.

(** * Running the script *)

(** Literals stay folded while the script is run symbolically. *)
#[local] Arguments py : simpl never.
#[local] Opaque py.

Lemma bind_run {A B} (m : M A) (k : A → M B) (w : World) :
  (m ≫= k) w
  = match m w with
    | (Ret a, w1, ev1) => let '(o, w2, ev2) := k a w1 in (o, w2, ev1 ++ ev2)
    | (Stop, w1, ev1) => (Stop, w1, ev1)
    | (Raise e, w1, ev1) => (Raise e, w1, ev1)
    end.
Proof. reflexivity. Qed.

Lemma bind_ret {A B} (m : M A) (k : A → M B) (w w1 : World) a ev1 :
  m w = (Ret a, w1, ev1) →
  (m ≫= k) w = let '(o, w2, ev2) := k a w1 in (o, w2, ev1 ++ ev2).
Proof. intros H. by rewrite bind_run, H. Qed.

Lemma fresh_ne (h : gmap positive (list Message)) (ℓ : positive) :
  is_Some (h !! ℓ) → fresh (dom h) ≠ ℓ.
Proof.
  intros Hℓ Heq. apply elem_of_dom in Hℓ. rewrite <- Heq in Hℓ.
  by apply is_fresh in Hℓ.
Qed.

Lemma for_each_emit {A} (f : A → list Event) (l : list A) (w : World) :
  for_each l (λ x, emit (f x)) w = (Ret tt, w, concat (map f l)).
Proof.
  induction l as [|x l IH]; [done |].
  cbn [for_each]. rewrite bind_run. unfold emit at 1. cbn iota beta.
  by rewrite IH.
Qed.

Lemma list_get_run (ℓ : positive) (w : World) (l : list Message) :
  heap w !! ℓ = Some l → list_get ℓ w = (Ret l, w, []).
Proof. intros H. unfold list_get. by rewrite H. Qed.

Lemma list_extend_run (ℓ : positive) (ms l : list Message) (w : World) :
  heap w !! ℓ = Some l →
  list_extend ℓ ms w
  = (Ret tt, {| heap := <[ℓ := l ++ ms]> (heap w); mensajes := mensajes w |}, []).
Proof.
  intros H. unfold list_extend.
  by rewrite (bind_ret _ _ _ _ _ _ (list_get_run _ _ _ H)).
Qed.

Lemma list_append_run (ℓ : positive) (m : Message) (l : list Message) (w : World) :
  heap w !! ℓ = Some l →
  list_append ℓ m w
  = (Ret tt, {| heap := <[ℓ := l ++ [m]]> (heap w); mensajes := mensajes w |}, []).
Proof. apply list_extend_run. Qed.

(** The history sent to the endpoint for a transcript: the system
    message, then the last ten messages that are not system messages. *)
Lemma preparar_historial_run
    (ℓ : positive) (system_prompt_con_contexto : str)
    (w : World) (msgs : list Message) :
  heap w !! ℓ = Some msgs →
  preparar_historial ℓ system_prompt_con_contexto w
  = (Ret (fresh (dom (heap w))),
     {| heap :=
          <[fresh (dom (heap w)) :=
              {| role := system; content := system_prompt_con_contexto |}
              :: slice_last 10 (filter no_system msgs)]> (heap w);
        mensajes := mensajes w |},
     []).
Proof.
  intros H. unfold preparar_historial.
  rewrite bind_run. unfold list_new at 1. cbn iota beta.
  set (h := fresh (dom (heap w))).
  set (w1 := {| heap := _; mensajes := _ |}).
  assert (heap w1 !! ℓ = Some msgs) as H1.
  { subst w1. cbn. rewrite lookup_insert_ne; [done |]. by apply fresh_ne. }
  rewrite (bind_ret _ _ _ _ _ _ (list_get_run _ _ _ H1)).
  assert (heap w1 !! h = Some [{| role := system; content := system_prompt_con_contexto |}]) as Hh.
  { subst w1. cbn. by rewrite lookup_insert_eq. }
  rewrite (bind_ret _ _ _ _ _ _ (list_extend_run _ _ _ _ Hh)).
  subst w1. cbn. by rewrite insert_insert_eq.
Qed.

Lemma generar_respuesta_modelo_run
    (env : Env) (cliente_groq : Groq) (modelo_seleccionado : Modelo)
    (historial_chat : positive) (w : World) (msgs : list Message) :
  heap w !! historial_chat = Some msgs →
  generar_respuesta_modelo env cliente_groq modelo_seleccionado historial_chat w
  = match completions_create env cliente_groq
            (peticion modelo_seleccionado msgs) with
    | returns respuesta =>
        (Ret respuesta, w,
         [api_call cliente_groq (peticion modelo_seleccionado msgs)])
    | raises e =>
        (Ret None, w,
         [api_call cliente_groq (peticion modelo_seleccionado msgs);
          error (py "Ocurrió un error al contactar la API de Groq: "
                 ++ exn_str e)])
    end.
Proof.
  intros H. unfold generar_respuesta_modelo, try_except.
  rewrite (bind_ret _ _ _ _ _ _ (list_get_run _ _ _ H)).
  cbn. by destruct (completions_create _ _ _).
Qed.

(** One question, run on a transcript [msgs]: what is stored, rendered
    and sent, by the reply of the endpoint. *)
Lemma turno_run
    (lower : str → str) (env : Env) (base : option dict) (cliente : Groq)
    (modelo : Modelo) (ℓ : positive) (p : str) (w : World)
    (msgs : list Message) :
  heap w !! ℓ = Some msgs →
  let msgs1 := msgs ++ [{| role := user; content := p |}] in
  let payload := historial lower base p msgs1 in
  let h := fresh (dom (<[ℓ := msgs1]> (heap w))) in
  let w2 := {| heap := <[h := payload]> (<[ℓ := msgs1]> (heap w));
               mensajes := mensajes w |} in
  let req := peticion modelo payload in
  let ev := [chat_message user AVATAR_USER; markdown p;
             chat_message assistant AVATAR_BOT;
             spinner (py "TecnoBot está pensando...");
             api_call cliente req] in
  turno lower env base cliente modelo ℓ p w
  = match completions_create env cliente req with
    | raises e =>
        (Ret tt, w2,
         ev ++ [error (py "Ocurrió un error al contactar la API de Groq: "
                       ++ exn_str e)])
    | returns (Some r) =>
        if truthy r
        then (Ret tt,
              {| heap := <[ℓ := msgs1 ++ [{| role := assistant; content := r |}]]>
                           (heap w2);
                 mensajes := mensajes w |},
              ev ++ [markdown r])
        else (Ret tt, w2, ev)
    | returns None => (Ret tt, w2, ev)
    end.
Proof.
  intros H msgs1 payload h w2 req ev. unfold turno.
  rewrite (bind_ret _ _ _ _ _ _ (list_append_run _ _ _ _ H)).
  fold msgs1. set (w1 := {| heap := _; mensajes := _ |}).
  rewrite bind_run. unfold emit at 1. cbn iota beta.
  assert (heap w1 !! ℓ = Some msgs1) as H1.
  { subst w1. cbn. by rewrite lookup_insert_eq. }
  rewrite (bind_ret _ _ _ _ _ _ (preparar_historial_run _ _ _ _ H1)).
  change (fresh (dom (heap w1))) with h.
  change {| heap := <[h := _]> (heap w1); mensajes := mensajes w1 |} with w2.
  rewrite bind_run. unfold emit at 1. cbn iota beta.
  assert (heap w2 !! h = Some payload) as Hh.
  { subst w2. cbn. by rewrite lookup_insert_eq. }
  assert (heap w2 !! ℓ = Some msgs1) as Hℓ.
  { subst w2. cbn. rewrite lookup_insert_ne; [by rewrite lookup_insert_eq |].
    apply fresh_ne. by rewrite lookup_insert_eq. }
  rewrite bind_run, (generar_respuesta_modelo_run _ _ _ _ _ _ Hh).
  fold req. destruct (completions_create env cliente req) as [e | [r |]].
  - done.
  - destruct (truthy r); [| done].
    rewrite bind_run. unfold emit at 1. cbn iota beta.
    by rewrite (list_append_run _ _ _ _ Hℓ).
  - done.
Qed.

Lemma cargar_base_de_conocimiento_run (env : Env) (ruta_archivo : str) (w : World) :
  cargar_base_de_conocimiento env ruta_archivo w
  = match json_load env ruta_archivo with
    | returns base => (Ret base, w, [])
    | raises e =>
        match class e with
        | FileNotFoundError =>
            (Ret None, w, [error (NO_ENCONTRADO ruta_archivo)])
        | JSONDecodeError =>
            (Ret None, w, [error (JSON_INVALIDO ruta_archivo)])
        | OtherException => (Raise e, w, [])
        end
    end.
Proof.
  unfold cargar_base_de_conocimiento, try_except.
  by destruct (json_load env ruta_archivo) as [[[] msg] | base].
Qed.

(** Without a knowledge base the run ends before anything else happens. *)
Lemma main_sin_base
    (lower : str → str) (env : Env) (w : World) (ev : list Event) :
  cargar_base_de_conocimiento env RUTA_ARCHIVO w = (Ret None, w, ev) →
  main lower env w = (Stop, w, CABECERA ++ ev).
Proof.
  intros H. unfold main. rewrite bind_run. unfold emit at 1. cbn iota beta.
  rewrite (bind_ret _ _ _ _ _ _ H). rewrite bind_run.
  unfold st_stop at 1. cbn iota beta. by rewrite app_nil_r.
Qed.

(** With the knowledge base and the key, the run draws the page and
    handles the question, if one was submitted. *)
Lemma main_run
    (lower : str → str) (env : Env) (w : World) (kb : dict) (k : str) :
  wf w →
  json_load env RUTA_ARCHIVO = returns (Some kb) →
  secrets_GROQ_API_KEY env = Some k →
  ∃ ℓ w0,
    mensajes w0 = Some ℓ
    ∧ heap w0 !! ℓ = Some (inicial w)
    ∧ (∀ ℓ', mensajes w = Some ℓ' → ℓ' = ℓ ∧ w0 = w)
    ∧ main lower env w
      = let ev0 := CABECERA ++ [header (py "Configuración"); INFO]
                   ++ concat (map dibujar (inicial w)) in
        match chat_input env with
        | Some p =>
            if truthy p
            then let '(o, w', ev) :=
                   turno lower env (Some kb) {| api_key := k |} (selectbox env)
                         ℓ p w0 in
                 (o, w', ev0 ++ ev)
            else (Ret tt, w0, ev0)
        | None => (Ret tt, w0, ev0)
        end.
Proof.
  intros Hwf Hjson Hkey.
  assert (∃ ℓ w0, iniciar_mensajes w = (Ret ℓ, w0, [])
                  ∧ mensajes w0 = Some ℓ ∧ heap w0 !! ℓ = Some (inicial w)
                  ∧ (∀ ℓ', mensajes w = Some ℓ' → ℓ' = ℓ ∧ w0 = w))
    as (ℓ & w0 & Hini & Hm & Hℓ & Hsame).
  { unfold iniciar_mensajes, inicial, stored, wf in *.
    rewrite bind_run. unfold session_mensajes at 1. cbn iota beta.
    destruct (mensajes w) as [ℓ |] eqn:Hmw.
    - destruct (Hwf ℓ eq_refl) as [l Hl]. exists ℓ, w.
      cbn. rewrite Hl. split; [done |]. split; [done |]. split; [done |].
      by intros ℓ' [= ->].
    - eexists _, _. split; [reflexivity |]. cbn.
      split; [done |]. split; [by rewrite lookup_insert_eq | done]. }
  exists ℓ, w0. split; [done |]. split; [done |]. split; [done |].
  unfold main. rewrite bind_run. unfold emit at 1. cbn iota beta.
  rewrite bind_run, cargar_base_de_conocimiento_run, Hjson.
  rewrite bind_run. unfold mret at 1, M_ret at 1. cbn iota beta.
  rewrite bind_run. unfold emit at 1. cbn iota beta.
  rewrite bind_run. unfold crear_cliente. rewrite Hkey.
  unfold mret at 1, M_ret at 1. cbn iota beta.
  rewrite bind_run. unfold emit at 1. cbn iota beta.
  rewrite (bind_ret _ _ _ _ _ _ Hini).
  rewrite bind_run. unfold mostrar_mensajes.
  rewrite (bind_ret _ _ _ _ _ _ (list_get_run _ _ _ Hℓ)).
  rewrite for_each_emit. cbn iota beta.
  destruct (chat_input env) as [p |]; [destruct (truthy p) |].
  - destruct (turno _ _ _ _ _ _ _ _) as [[o w'] ev]. cbn.
    by rewrite ?app_nil_r, <- ?app_assoc.
  - unfold mret, M_ret. cbn. by rewrite ?app_nil_r.
  - unfold mret, M_ret. cbn. by rewrite ?app_nil_r.
Qed.

Lemma api_calls_dibujar (msgs : list Message) :
  api_calls (concat (map dibujar msgs)) = [].
Proof. by induction msgs. Qed.

(** A run with a question: the world and the events it ends with, by
    the reply of the endpoint to the one request that is sent. *)
Lemma main_turno
    (lower : str → str) (env : Env) (w : World) (kb : dict) (k p : str) :
  wf w →
  json_load env RUTA_ARCHIVO = returns (Some kb) →
  secrets_GROQ_API_KEY env = Some k →
  chat_input env = Some p →
  truthy p = true →
  let msgs1 := inicial w ++ [{| role := user; content := p |}] in
  let req := peticion (selectbox env) (historial lower (Some kb) p msgs1) in
  let ev1 := CABECERA ++ [header (py "Configuración"); INFO]
             ++ concat (map dibujar (inicial w))
             ++ [chat_message user AVATAR_USER; markdown p;
                 chat_message assistant AVATAR_BOT;
                 spinner (py "TecnoBot está pensando...");
                 api_call {| api_key := k |} req] in
  ∃ w',
    wf w'
    ∧ match completions_create env {| api_key := k |} req with
      | raises e =>
          main lower env w
          = (Ret tt, w',
             ev1 ++ [error (py "Ocurrió un error al contactar la API de Groq: "
                            ++ exn_str e)])
          ∧ stored w' = Some msgs1
      | returns (Some r) =>
          if truthy r
          then main lower env w
               = (Ret tt, w', ev1 ++ [markdown r])
               ∧ stored w'
                 = Some (msgs1 ++ [{| role := assistant; content := r |}])
          else main lower env w = (Ret tt, w', ev1) ∧ stored w' = Some msgs1
      | returns None =>
          main lower env w = (Ret tt, w', ev1) ∧ stored w' = Some msgs1
      end.
Proof.
  intros Hwf Hjson Hkey Hchat Hp msgs1 req ev1.
  destruct (main_run lower env w kb k Hwf Hjson Hkey)
    as (ℓ & w0 & Hm & Hℓ & _ & Hmain).
  rewrite Hchat, Hp, (turno_run _ _ _ _ _ _ _ _ _ Hℓ) in Hmain.
  fold msgs1 in Hmain. cbn zeta in Hmain. fold req in Hmain.
  assert (fresh (dom (<[ℓ := msgs1]> (heap w0))) ≠ ℓ) as Hne.
  { apply fresh_ne. by rewrite lookup_insert_eq. }
  destruct (completions_create env {| api_key := k |} req) as [e | [r |]];
    [| destruct (truthy r) |].
  all: eexists; (split; [| split; [rewrite Hmain; f_equal;
                                   subst ev1; by rewrite <- ?app_assoc |]]).
  all: unfold wf, stored; cbn; rewrite ?Hm; cbn;
    try (intros ? [= <-]);
    rewrite ?lookup_insert_eq, ?(lookup_insert_ne _ _ _ _ Hne),
            ?lookup_insert_eq; done.
Qed.

(** * The window over the transcript *)

Lemma slice_last_length {A} (n : nat) (l : list A) :
  length (slice_last n l) = n `min` length l.
Proof. unfold slice_last. rewrite length_drop. lia. Qed.

Lemma slice_last_suffix {A} (n : nat) (l : list A) : slice_last n l `suffix_of` l.
Proof. apply suffix_drop. Qed.

Lemma slice_last_short {A} (n : nat) (l : list A) :
  length l ≤ n → slice_last n l = l.
Proof.
  intros H. unfold slice_last. by replace (length l - n) with 0 by lia.
Qed.

Lemma Forall_no_system_filter (msgs : list Message) :
  Forall no_system (filter no_system msgs).
Proof. apply Forall_forall. intros m Hm. by apply list_elem_of_filter in Hm as [? _]. Qed.

(** C4: for a stored transcript of any length, the list built for the
    endpoint is one system message followed by at most ten messages,
    none of them a system message: the last ten of the transcript's
    non-system messages (all of them when there are fewer), in their
    order; and this list is what the request carries. *)
Theorem C4_payload_is_system_plus_last_ten
    (system_prompt_con_contexto : str) (ℓ : positive) (w : World)
    (msgs : list Message) :
  heap w !! ℓ = Some msgs →
  ∃ h w' rest,
    preparar_historial ℓ system_prompt_con_contexto w = (Ret h, w', [])
    ∧ heap w' !! h
      = Some ({| role := system; content := system_prompt_con_contexto |}
              :: rest)
    ∧ Forall no_system rest
    ∧ length rest ≤ 10
    ∧ length rest = 10 `min` length (filter no_system msgs)
    ∧ rest `suffix_of` filter no_system msgs
    ∧ rest `sublist_of` msgs
    ∧ ∀ env cliente modelo,
        api_calls (generar_respuesta_modelo env cliente modelo h w').2
        = [peticion modelo
             ({| role := system; content := system_prompt_con_contexto |}
              :: rest)].
Proof.
  intros H. eexists _, _, (slice_last 10 (filter no_system msgs)).
  split; [by apply preparar_historial_run |]. cbn [heap].
  split; [by rewrite lookup_insert_eq |].
  split; [apply Forall_drop, Forall_no_system_filter |].
  split; [rewrite slice_last_length; lia |].
  split; [apply slice_last_length |].
  split; [apply slice_last_suffix |].
  split; [etrans; [apply sublist_drop | apply sublist_filter] |].
  intros env cliente modelo.
  rewrite (generar_respuesta_modelo_run _ _ _ _ _ _ (lookup_insert_eq _ _ _)).
  by destruct (completions_create _ _ _).
Qed.

Lemma C4_payload_is_system_plus_last_ten_witness :
  ∃ h w' rest,
    preparar_historial 1%positive (py "sistema") w_ejemplo = (Ret h, w', [])
    ∧ heap w' !! h
      = Some ({| role := system; content := py "sistema" |} :: rest)
    ∧ Forall no_system rest
    ∧ length rest ≤ 10
    ∧ length rest = 10 `min` length (filter no_system mensajes_ejemplo)
    ∧ rest `suffix_of` filter no_system mensajes_ejemplo
    ∧ rest `sublist_of` mensajes_ejemplo
    ∧ ∀ env cliente modelo,
        api_calls (generar_respuesta_modelo env cliente modelo h w').2
        = [peticion modelo
             ({| role := system; content := py "sistema" |} :: rest)].
Proof.
  apply (C4_payload_is_system_plus_last_ten (py "sistema") 1%positive
           w_ejemplo mensajes_ejemplo).
  vm_compute. reflexivity.
Defined.

(** C8: building the list for the endpoint, and sending it, leaves the
    stored transcript as it was: the list is a new object, the session
    state still refers to the same transcript object, and every object
    that existed keeps its contents. *)
Theorem C8_window_leaves_transcript_unchanged
    (system_prompt_con_contexto : str) (ℓ : positive) (w : World)
    (msgs : list Message) :
  mensajes w = Some ℓ →
  heap w !! ℓ = Some msgs →
  ∃ h w',
    preparar_historial ℓ system_prompt_con_contexto w = (Ret h, w', [])
    ∧ h ≠ ℓ
    ∧ mensajes w' = Some ℓ
    ∧ heap w' !! ℓ = Some msgs
    ∧ stored w' = stored w
    ∧ (∀ ℓ', is_Some (heap w !! ℓ') → heap w' !! ℓ' = heap w !! ℓ')
    ∧ ∀ env cliente modelo,
        (generar_respuesta_modelo env cliente modelo h w').1.2 = w'.
Proof.
  intros Hm H. eexists _, _.
  split; [by apply preparar_historial_run |].
  assert (∀ ℓ', is_Some (heap w !! ℓ') →
            <[fresh (dom (heap w)) := {| role := system;
                                         content := system_prompt_con_contexto |}
              :: slice_last 10 (filter no_system msgs)]> (heap w) !! ℓ'
            = heap w !! ℓ') as Hframe.
  { intros ℓ' Hℓ'. rewrite lookup_insert_ne; [done |]. by apply fresh_ne. }
  split; [apply fresh_ne; by rewrite H |].
  split; [done |]. cbn.
  split; [rewrite Hframe; [done | by rewrite H] |].
  split; [unfold stored; cbn; rewrite Hm; cbn;
          rewrite Hframe; [done | by rewrite H] |].
  split; [done |].
  intros env cliente modelo.
  rewrite (generar_respuesta_modelo_run _ _ _ _ _ _ (lookup_insert_eq _ _ _)).
  by destruct (completions_create _ _ _).
Qed.

Lemma C8_window_leaves_transcript_unchanged_witness :
  ∃ h w',
    preparar_historial 1%positive (py "sistema") w_ejemplo = (Ret h, w', [])
    ∧ h ≠ 1%positive
    ∧ mensajes w' = Some 1%positive
    ∧ heap w' !! 1%positive = Some mensajes_ejemplo
    ∧ stored w' = stored w_ejemplo
    ∧ (∀ ℓ', is_Some (heap w_ejemplo !! ℓ') →
         heap w' !! ℓ' = heap w_ejemplo !! ℓ')
    ∧ ∀ env cliente modelo,
        (generar_respuesta_modelo env cliente modelo h w').1.2 = w'.
Proof.
  apply (C8_window_leaves_transcript_unchanged (py "sistema") 1%positive
           w_ejemplo mensajes_ejemplo).
  - reflexivity.
  - vm_compute. reflexivity.
Defined.

(** * Turns *)

(** Any submitted question is taken up by a well-formed session: the
    run ends normally and the stored transcript is the one the run
    started from, the question, and what the turn added after it. *)
Lemma main_acepta
    (lower : str → str) (env : Env) (w : World) (kb : dict) (k p : str) :
  wf w →
  json_load env RUTA_ARCHIVO = returns (Some kb) →
  secrets_GROQ_API_KEY env = Some k →
  chat_input env = Some p →
  truthy p = true →
  ∃ w' ev resto,
    main lower env w = (Ret tt, w', ev)
    ∧ wf w'
    ∧ stored w'
      = Some (inicial w ++ [{| role := user; content := p |}] ++ resto).
Proof.
  intros Hwf Hjson Hkey Hchat Hp.
  destruct (main_turno lower env w kb k p Hwf Hjson Hkey Hchat Hp)
    as (w' & Hwf' & H).
  destruct (completions_create _ _ _) as [e | [r |]];
    [| destruct (truthy r) |]; destruct H as [Hmain Hst].
  2: { eexists w', _, [{| role := assistant; content := r |}].
       split; [exact Hmain |]. split; [done |]. by rewrite Hst, <- app_assoc. }
  all: eexists w', _, []; (split; [exact Hmain |]); (split; [done |]).
  all: by rewrite Hst.
Qed.

(** C5: when the call to the endpoint raises, the run still ends
    normally; the stored transcript is the one the run started from
    plus the user's message and nothing else; the error is shown; one
    request was sent (no retry); and the session takes the next
    question, whose message is stored right after. *)
Theorem C5_dispatch_failure_keeps_user_message
    (lower : str → str) (env : Env) (w : World) (kb : dict) (k p : str)
    (e : Exn) :
  wf w →
  json_load env RUTA_ARCHIVO = returns (Some kb) →
  secrets_GROQ_API_KEY env = Some k →
  chat_input env = Some p →
  truthy p = true →
  completions_create env {| api_key := k |}
    (peticion (selectbox env)
       (historial lower (Some kb) p
          (inicial w ++ [{| role := user; content := p |}])))
  = raises e →
  ∃ w' ev,
    main lower env w = (Ret tt, w', ev)
    ∧ stored w' = Some (inicial w ++ [{| role := user; content := p |}])
    ∧ last ev
      = Some (error (py "Ocurrió un error al contactar la API de Groq: "
                     ++ exn_str e))
    ∧ length (api_calls ev) = 1
    ∧ wf w'
    ∧ ∀ env2 kb2 k2 p2,
        json_load env2 RUTA_ARCHIVO = returns (Some kb2) →
        secrets_GROQ_API_KEY env2 = Some k2 →
        chat_input env2 = Some p2 →
        truthy p2 = true →
        ∃ w'' ev2 resto,
          main lower env2 w' = (Ret tt, w'', ev2)
          ∧ stored w''
            = Some (inicial w
                    ++ [{| role := user; content := p |};
                        {| role := user; content := p2 |}] ++ resto).
Proof.
  intros Hwf Hjson Hkey Hchat Hp Hraises.
  destruct (main_turno lower env w kb k p Hwf Hjson Hkey Hchat Hp)
    as (w' & Hwf' & H).
  rewrite Hraises in H. destruct H as [Hmain Hst].
  eexists w', _. split; [exact Hmain |]. split; [exact Hst |].
  split; [by rewrite last_snoc |].
  split.
  { unfold api_calls. rewrite !omap_app.
    fold (api_calls (concat (map dibujar (inicial w)))).
    by rewrite api_calls_dibujar. }
  split; [done |].
  intros env2 kb2 k2 p2 Hjson2 Hkey2 Hchat2 Hp2.
  destruct (main_acepta lower env2 w' kb2 k2 p2 Hwf' Hjson2 Hkey2 Hchat2 Hp2)
    as (w'' & ev2 & resto & Hmain2 & _ & Hst2).
  exists w'', ev2, resto. split; [done |].
  rewrite Hst2. unfold inicial at 1. rewrite Hst. cbn [default from_option id].
  by rewrite <- app_assoc.
Qed.

Lemma C5_dispatch_failure_keeps_user_message_witness :
  ∃ w' ev,
    main lower_latin1 env_falla w_ejemplo = (Ret tt, w', ev)
    ∧ stored w'
      = Some (inicial w_ejemplo ++ [{| role := user; content := py "hola" |}])
    ∧ last ev
      = Some (error (py "Ocurrió un error al contactar la API de Groq: "
                     ++ exn_str TIMEOUT))
    ∧ length (api_calls ev) = 1
    ∧ wf w'
    ∧ ∀ env2 kb2 k2 p2,
        json_load env2 RUTA_ARCHIVO = returns (Some kb2) →
        secrets_GROQ_API_KEY env2 = Some k2 →
        chat_input env2 = Some p2 →
        truthy p2 = true →
        ∃ w'' ev2 resto,
          main lower_latin1 env2 w' = (Ret tt, w'', ev2)
          ∧ stored w''
            = Some (inicial w_ejemplo
                    ++ [{| role := user; content := py "hola" |};
                        {| role := user; content := p2 |}] ++ resto).
Proof.
  apply (C5_dispatch_failure_keeps_user_message lower_latin1 env_falla
           w_ejemplo kb_ejemplo (py "gsk") (py "hola") TIMEOUT).
  - intros ℓ [= <-]. exists mensajes_ejemplo. vm_compute. reflexivity.
  - reflexivity.
  - reflexivity.
  - reflexivity.
  - vm_compute. reflexivity.
  - reflexivity.
Defined.

(** C6 as the specification words it fails: the endpoint may answer
    with the empty text; the call has succeeded, yet the guard
    [if respuesta_bot:] is false and nothing is appended. *)
Lemma C6_empty_reply_is_not_appended :
  (∀ cliente req,
     completions_create env_responde_vacio cliente req = returns (Some []))
  ∧ stored (main lower_latin1 env_responde_vacio nuevo).1.2
    = Some [SALUDO; {| role := user; content := py "hola" |}].
Proof.
  split; [done |]. vm_compute. reflexivity.
Qed.

(** C6 (amended): when the call to the endpoint succeeds with a text
    that is not empty, [generar_respuesta_modelo] returns that text, the
    run shows it in the assistant's message, last, and the stored
    transcript ends with the user's message followed by the text as an
    assistant message. *)
Theorem C6_reply_is_appended_and_shown
    (lower : str → str) (env : Env) (w : World) (kb : dict) (k p r : str) :
  wf w →
  json_load env RUTA_ARCHIVO = returns (Some kb) →
  secrets_GROQ_API_KEY env = Some k →
  chat_input env = Some p →
  truthy p = true →
  completions_create env {| api_key := k |}
    (peticion (selectbox env)
       (historial lower (Some kb) p
          (inicial w ++ [{| role := user; content := p |}])))
  = returns (Some r) →
  truthy r = true →
  (∀ h w1,
     heap w1 !! h
     = Some (historial lower (Some kb) p
               (inicial w ++ [{| role := user; content := p |}])) →
     (generar_respuesta_modelo env {| api_key := k |} (selectbox env) h w1).1.1
     = Ret (Some r))
  ∧ ∃ w' ev,
      main lower env w = (Ret tt, w', ev)
      ∧ stored w'
        = Some (inicial w ++ [{| role := user; content := p |};
                              {| role := assistant; content := r |}])
      ∧ last ev = Some (markdown r)
      ∧ wf w'.
Proof.
  intros Hwf Hjson Hkey Hchat Hp Hret Hr. split.
  { intros h w1 Hh.
    by rewrite (generar_respuesta_modelo_run _ _ _ _ _ _ Hh), Hret. }
  destruct (main_turno lower env w kb k p Hwf Hjson Hkey Hchat Hp)
    as (w' & Hwf' & H).
  rewrite Hret, Hr in H. destruct H as [Hmain Hst].
  eexists w', _. split; [exact Hmain |].
  split; [by rewrite Hst, <- app_assoc |].
  split; [by rewrite last_snoc | done].
Qed.

Lemma C6_reply_is_appended_and_shown_witness :
  (∀ h w1,
     heap w1 !! h
     = Some (historial lower_latin1 (Some kb_ejemplo) (py "hola")
               (inicial nuevo ++ [{| role := user; content := py "hola" |}])) →
     (generar_respuesta_modelo env_responde {| api_key := py "gsk" |}
        (selectbox env_responde) h w1).1.1
     = Ret (Some (py "Buenas.")))
  ∧ ∃ w' ev,
      main lower_latin1 env_responde nuevo = (Ret tt, w', ev)
      ∧ stored w'
        = Some (inicial nuevo
                ++ [{| role := user; content := py "hola" |};
                    {| role := assistant; content := py "Buenas." |}])
      ∧ last ev = Some (markdown (py "Buenas."))
      ∧ wf w'.
Proof.
  apply (C6_reply_is_appended_and_shown lower_latin1 env_responde nuevo
           kb_ejemplo (py "gsk") (py "hola") (py "Buenas.")).
  - intros ℓ H. discriminate H.
  - reflexivity.
  - reflexivity.
  - reflexivity.
  - vm_compute. reflexivity.
  - reflexivity.
  - vm_compute. reflexivity.
Defined.

(** * The loader *)

(** C7: the loader handles two failures, each with its own message:
    the missing file and the file that is not JSON; it then returns
    [None]. Any other exception is not handled, and a file that parses
    is returned as parsed, without a message. When the loader has
    reported one of the two failures, [main] shows the message and
    halts at once: nothing is stored, nothing is sent, whatever was
    typed. *)
Theorem C7_loader_failures_halt_the_session
    (lower : str → str) (env : Env) (ruta_archivo : str) (w : World) :
  cargar_base_de_conocimiento env ruta_archivo w
  = match json_load env ruta_archivo with
    | returns base => (Ret base, w, [])
    | raises e =>
        match class e with
        | FileNotFoundError =>
            (Ret None, w, [error (NO_ENCONTRADO ruta_archivo)])
        | JSONDecodeError =>
            (Ret None, w, [error (JSON_INVALIDO ruta_archivo)])
        | OtherException => (Raise e, w, [])
        end
    end
  ∧ NO_ENCONTRADO ruta_archivo ≠ JSON_INVALIDO ruta_archivo
  ∧ ((∃ msg, cargar_base_de_conocimiento env ruta_archivo w
             = (Ret None, w, [error msg]))
     ↔ ∃ e, json_load env ruta_archivo = raises e
            ∧ (class e = FileNotFoundError ∨ class e = JSONDecodeError))
  ∧ match json_load env RUTA_ARCHIVO with
    | raises e =>
        match class e with
        | FileNotFoundError =>
            main lower env w
            = (Stop, w, CABECERA ++ [error (NO_ENCONTRADO RUTA_ARCHIVO)])
        | JSONDecodeError =>
            main lower env w
            = (Stop, w, CABECERA ++ [error (JSON_INVALIDO RUTA_ARCHIVO)])
        | OtherException => True
        end
    | returns _ => True
    end.
Proof.
  split; [apply cargar_base_de_conocimiento_run |].
  split.
  { unfold NO_ENCONTRADO, JSON_INVALIDO. intros H.
    apply (f_equal (λ s, s !! 15%nat)) in H. vm_compute in H. discriminate H. }
  split.
  { rewrite cargar_base_de_conocimiento_run.
    destruct (json_load env ruta_archivo) as [[[] msg] | base]; cbn [class]; split.
    all: try (intros [m H]; discriminate H).
    all: try (intros (e & [= <-] & [H | H]); discriminate H).
    all: try (intros (e & H & _); discriminate H).
    all: eauto. }
  pose proof (cargar_base_de_conocimiento_run env RUTA_ARCHIVO w) as H.
  destruct (json_load env RUTA_ARCHIVO) as [[[] msg] | base];
    cbn [class] in *; [| | done | done].
  all: apply main_sin_base, H.
Qed.

(** The run of the specification's taxonomy: no knowledge file. *)
Example main_sin_archivo :
  main lower_latin1 env_sin_archivo w_ejemplo
  = (Stop, w_ejemplo, CABECERA ++ [error (NO_ENCONTRADO RUTA_ARCHIVO)]).
Proof.
  apply main_sin_base. by rewrite cargar_base_de_conocimiento_run.
Qed.

(** * The stored transcript over a session *)

Lemma main_sin_clave
    (lower : str → str) (env : Env) (w : World) (kb : dict) :
  json_load env RUTA_ARCHIVO = returns (Some kb) →
  secrets_GROQ_API_KEY env = None →
  main lower env w
  = (Stop, w, CABECERA ++ [header (py "Configuración"); error SIN_API_KEY]).
Proof.
  intros Hjson Hkey. unfold main. rewrite bind_run. unfold emit at 1.
  cbn iota beta. rewrite bind_run, cargar_base_de_conocimiento_run, Hjson.
  rewrite bind_run. unfold mret at 1, M_ret at 1. cbn iota beta.
  rewrite bind_run. unfold emit at 1. cbn iota beta.
  rewrite bind_run. unfold crear_cliente. rewrite Hkey. done.
Qed.

Lemma main_excepcion
    (lower : str → str) (env : Env) (w : World) (e : Exn) :
  json_load env RUTA_ARCHIVO = raises e →
  class e = OtherException →
  main lower env w = (Raise e, w, CABECERA).
Proof.
  intros Hjson He. unfold main. rewrite bind_run. unfold emit at 1.
  cbn iota beta. rewrite bind_run, cargar_base_de_conocimiento_run, Hjson, He.
  by rewrite app_nil_r.
Qed.

(** A run either leaves the stored transcript alone or leaves the
    transcript it started from with user and assistant messages after
    it. *)
Lemma main_preserva
    (lower : str → str) (env : Env) (w w' : World) (o : Outcome unit)
    (ev : list Event) :
  wf w →
  main lower env w = (o, w', ev) →
  wf w'
  ∧ (stored w' = stored w
     ∨ ∃ resto, stored w' = Some (inicial w ++ resto)
                ∧ Forall user_o_assistant resto).
Proof.
  intros Hwf Hmain.
  pose proof (cargar_base_de_conocimiento_run env RUTA_ARCHIVO w) as Hc.
  destruct (json_load env RUTA_ARCHIVO) as [[[] msg] | [kb |]] eqn:Hjson;
    cbn [class] in Hc.
  1, 2, 5: rewrite (main_sin_base lower env w _ Hc) in Hmain;
           injection Hmain as _ <- _; by split; [| left].
  { rewrite (main_excepcion lower env w _ Hjson eq_refl) in Hmain.
    injection Hmain as _ <- _. by split; [| left]. }
  destruct (secrets_GROQ_API_KEY env) as [k |] eqn:Hkey.
  2: { rewrite (main_sin_clave lower env w kb Hjson Hkey) in Hmain.
       injection Hmain as _ <- _. by split; [| left]. }
  assert (∀ w0 ℓ, w' = w0 → mensajes w0 = Some ℓ →
            heap w0 !! ℓ = Some (inicial w) →
            wf w' ∧ (stored w' = stored w
                     ∨ ∃ resto, stored w' = Some (inicial w ++ resto)
                                ∧ Forall user_o_assistant resto)) as Hsame.
  { intros w0 ℓ -> Hm Hℓ. split.
    - intros ℓ' Hℓ'. rewrite Hm in Hℓ'. injection Hℓ' as <-. by rewrite Hℓ.
    - right. exists []. split; [| done].
      unfold stored. rewrite Hm. cbn. by rewrite Hℓ, app_nil_r. }
  destruct (chat_input env) as [p |] eqn:Hchat;
    [destruct (truthy p) eqn:Hp |].
  - destruct (main_turno lower env w kb k p Hwf Hjson Hkey Hchat Hp)
      as (w1 & Hwf1 & H).
    destruct (completions_create _ _ _) as [e | [r |]];
      [| destruct (truthy r) |]; destruct H as [Hmain1 Hst];
      rewrite Hmain1 in Hmain; injection Hmain as _ <- _;
      (split; [done |]); right.
    2: { exists [{| role := user; content := p |};
                 {| role := assistant; content := r |}].
         rewrite Hst, <- app_assoc. split; [done |].
         constructor; [by left |]. constructor; [by right | constructor]. }
    all: exists [{| role := user; content := p |}];
      (split; [done |]); (constructor; [by left | constructor]).
  - destruct (main_run lower env w kb k Hwf Hjson Hkey)
      as (ℓ & w0 & Hm & Hℓ & _ & Hmain0).
    rewrite Hchat, Hp, Hmain in Hmain0. injection Hmain0 as _ -> _.
    by apply (Hsame w0 ℓ).
  - destruct (main_run lower env w kb k Hwf Hjson Hkey)
      as (ℓ & w0 & Hm & Hℓ & _ & Hmain0).
    rewrite Hchat, Hmain in Hmain0. injection Hmain0 as _ -> _.
    by apply (Hsame w0 ℓ).
Qed.

Lemma filter_no_system_id (msgs : list Message) :
  Forall no_system msgs → filter no_system msgs = msgs.
Proof.
  induction 1 as [|m msgs Hm _ IH]; [done |].
  by rewrite filter_cons_True, IH.
Qed.

Lemma user_o_assistant_no_system (msg : Message) :
  user_o_assistant msg → no_system msg.
Proof. unfold no_system. intros [H | H]; by rewrite H. Qed.

(** C10: in every world a session can reach, the stored transcript (once
    there is one) is the assistant's greeting followed by user and
    assistant messages only; it holds no system message, and the filter
    applied when the history is built returns it whole. *)
Theorem C10_transcript_has_no_system_message
    (lower : str → str) (w : World) (msgs : list Message) :
  reachable lower w →
  stored w = Some msgs →
  role SALUDO = assistant
  ∧ (∃ resto, msgs = SALUDO :: resto ∧ Forall user_o_assistant resto)
  ∧ Forall no_system msgs
  ∧ filter no_system msgs = msgs.
Proof.
  intros Hreach Hst.
  assert (wf w ∧ ∀ msgs, stored w = Some msgs →
            ∃ resto, msgs = SALUDO :: resto ∧ Forall user_o_assistant resto)
    as [_ Hinv].
  { clear msgs Hst.
    induction Hreach as [| w env o w' ev _ [Hwf IH] Hmain].
    - split; [by intros ℓ H | by intros msgs H].
    - destruct (main_preserva lower env w w' o ev Hwf Hmain)
        as [Hwf' [Heq | (resto & Hst' & Hresto)]].
      + split; [done |]. intros msgs Hst. apply IH. by rewrite <- Heq.
      + split; [done |]. intros msgs Hst. rewrite Hst' in Hst.
        injection Hst as <-. unfold inicial.
        destruct (stored w) as [msgs0 |]; cbn.
        * destruct (IH msgs0 eq_refl) as (resto0 & -> & Hresto0).
          exists (resto0 ++ resto). split; [done |]. by apply Forall_app.
        * by exists resto. }
  destruct (Hinv msgs Hst) as (resto & -> & Hresto).
  assert (Forall no_system (SALUDO :: resto)) as Hns.
  { constructor; [done |].
    eapply Forall_impl; [exact Hresto | apply user_o_assistant_no_system]. }
  split; [done |]. split; [by exists resto |]. split; [done |].
  by apply filter_no_system_id.
Qed.

Lemma C10_transcript_has_no_system_message_witness :
  role SALUDO = assistant
  ∧ (∃ resto,
       [SALUDO; {| role := user; content := py "hola" |};
        {| role := assistant; content := py "Buenas." |}]
       = SALUDO :: resto
       ∧ Forall user_o_assistant resto)
  ∧ Forall no_system
      [SALUDO; {| role := user; content := py "hola" |};
       {| role := assistant; content := py "Buenas." |}]
  ∧ filter no_system
      [SALUDO; {| role := user; content := py "hola" |};
       {| role := assistant; content := py "Buenas." |}]
    = [SALUDO; {| role := user; content := py "hola" |};
       {| role := assistant; content := py "Buenas." |}].
Proof.
  apply (C10_transcript_has_no_system_message lower_latin1
           (main lower_latin1 env_responde nuevo).1.2).
  - apply (reachable_run lower_latin1 nuevo env_responde
             (main lower_latin1 env_responde nuevo).1.1
             (main lower_latin1 env_responde nuevo).1.2
             (main lower_latin1 env_responde nuevo).2).
    + apply reachable_nuevo.
    + by destruct (main lower_latin1 env_responde nuevo) as [[o w'] ev].
  - vm_compute. reflexivity.
Defined.


(** * Further properties of the retriever *)

Lemma acumular_filter (q : str) (kb : dict) :
  acumular q kb = concat (map (λ kv, linea kv.2) (filter (coincide q) kb)).
Proof.
  induction kb as [|[k t] kb IH]; [done |].
  rewrite acumular_cons, filter_cons, IH.
  destruct (decide (coincide q (k, t))) as [Hk | Hk]; unfold coincide in Hk;
    cbn [fst] in Hk.
  - by rewrite Hk.
  - by apply not_true_is_false in Hk as ->.
Qed.

Lemma truthy_SIN_CONTEXTO : truthy SIN_CONTEXTO = true.
Proof. vm_compute. reflexivity. Qed.

(** X1: the whole of the retriever (lines 53-62). The pairs whose
    keyword is found in the lowercased query decide the result: with
    none, it is [get("instituto", ...)]; otherwise it is their lines
    ["- {text}\n"], one per pair, in the order of the mapping, and
    nothing from any other pair. *)
Theorem X1_retriever_is_the_lines_of_the_matches
    (lower : str → str) (query : str) (kb : dict) :
  buscar_contexto_relevante lower query (Some kb)
  = match filter (coincide (lower query)) kb with
    | [] => default SIN_CONTEXTO (dict_get (py "instituto") kb)
    | kv :: hits => concat (map (λ kv, linea kv.2) (kv :: hits))
    end.
Proof.
  unfold buscar_contexto_relevante. rewrite acumular_filter.
  destruct (filter (coincide (lower query)) kb) as [|kv hits]; [done |].
  cbn [map concat]. by rewrite truthy_app_l by apply truthy_linea.
Qed.

(** X2: only the lowercased form of the query counts (line 53): two
    queries with the same lowercased form get the same context, from
    any knowledge base, also a missing one. *)
Theorem X2_query_case_is_irrelevant
    (lower : str → str) (query1 query2 : str) (base : option dict) :
  lower query1 = lower query2 →
  buscar_contexto_relevante lower query1 base
  = buscar_contexto_relevante lower query2 base.
Proof.
  intros H. destruct base as [kb |]; [| done].
  unfold buscar_contexto_relevante. by rewrite H.
Qed.

Lemma X2_query_case_is_irrelevant_witness :
  buscar_contexto_relevante lower_latin1 (py "¿HORARIO?") (Some kb_ejemplo)
  = buscar_contexto_relevante lower_latin1 (py "¿Horario?") (Some kb_ejemplo).
Proof.
  apply (X2_query_case_is_irrelevant lower_latin1 (py "¿HORARIO?")
           (py "¿Horario?") (Some kb_ejemplo)).
  vm_compute. reflexivity.
Defined.

(** X3: the retrieved context is the empty string in one case only
    (lines 59-62): no keyword is found in the lowercased query and the
    mapping stores the empty text under ["instituto"]. *)
Theorem X3_context_is_empty_only_by_an_empty_fallback
    (lower : str → str) (query : str) (kb : dict) :
  buscar_contexto_relevante lower query (Some kb) = []
  ↔ (∀ keyword text, (keyword, text) ∈ kb → ¬ occurs_in keyword (lower query))
    ∧ dict_get (py "instituto") kb = Some [].
Proof.
  split.
  - intros Hvacio.
    assert (∀ keyword text, (keyword, text) ∈ kb →
              ¬ occurs_in keyword (lower query)) as Hno.
    { intros keyword text Hin Hk. apply str_in_spec in Hk.
      pose proof (acumular_occurs _ _ _ _ Hin Hk) as Hl.
      rewrite <- (buscar_con_coincidencia lower query keyword text kb Hin Hk),
        Hvacio in Hl.
      by apply truthy_occurs_linea in Hl. }
    split; [done |].
    rewrite (buscar_sin_coincidencias lower query kb Hno) in Hvacio.
    destruct (dict_get (py "instituto") kb) as [text |]; cbn in Hvacio.
    + by rewrite Hvacio.
    + pose proof truthy_SIN_CONTEXTO as H. by rewrite Hvacio in H.
  - intros [Hno Hget].
    by rewrite (buscar_sin_coincidencias lower query kb Hno), Hget.
Qed.

(** * Further properties of the script *)


Lemma slice_last_snoc {A} (n : nat) (l : list A) (x : A) :
  1 ≤ n → last (slice_last n (l ++ [x])) = Some x.
Proof.
  intros Hn. unfold slice_last. rewrite length_app. cbn [length].
  rewrite drop_app_le by lia. apply last_snoc.
Qed.

(** The history built for a question: its shape. *)
Lemma historial_forma
    (lower : str → str) (base : option dict) (p : str) (msgs : list Message)
    (m : Message) :
  no_system m →
  ∃ sp rest,
    historial lower base p (msgs ++ [m])
    = {| role := system; content := sp |} :: rest
    ∧ sp = prompt_con_contexto (buscar_contexto_relevante lower p base)
    ∧ Forall no_system rest
    ∧ length rest ≤ 10
    ∧ last rest = Some m.
Proof.
  intros Hm. eexists _, _. split; [reflexivity |]. split; [done |].
  split; [apply Forall_drop, Forall_no_system_filter |].
  split; [rewrite slice_last_length; lia |].
  rewrite filter_app, (filter_cons_True no_system m []) by done.
  apply slice_last_snoc. lia.
Qed.

(** X11: the question is always part of what is sent (lines 116 and
    128-132): for a transcript that ends with a message that is not a
    system message, the list built for the endpoint begins with the
    system message and ends with that last message. *)
Theorem X11_history_ends_with_the_last_message
    (system_prompt_con_contexto : str) (ℓ : positive) (w : World)
    (msgs : list Message) (m : Message) :
  heap w !! ℓ = Some (msgs ++ [m]) →
  no_system m →
  ∃ h w' payload,
    preparar_historial ℓ system_prompt_con_contexto w = (Ret h, w', [])
    ∧ heap w' !! h = Some payload
    ∧ head payload
      = Some {| role := system; content := system_prompt_con_contexto |}
    ∧ last payload = Some m
    ∧ 2 ≤ length payload ≤ 11.
Proof.
  intros H Hm. eexists _, _, _.
  split; [by apply preparar_historial_run |]. cbn [heap].
  split; [by rewrite lookup_insert_eq |]. split; [done |].
  assert (last (slice_last 10 (filter no_system (msgs ++ [m]))) = Some m)
    as Hlast.
  { rewrite filter_app, (filter_cons_True no_system m []) by done.
    apply slice_last_snoc. lia. }
  pose proof (slice_last_length 10 (filter no_system (msgs ++ [m]))) as Hlen.
  destruct (slice_last 10 (filter no_system (msgs ++ [m]))) as [|m0 rest];
    [discriminate Hlast |].
  split; [by rewrite last_cons_cons |]. cbn [length] in *. lia.
Qed.

Lemma X11_history_ends_with_the_last_message_witness :
  ∃ h w' payload,
    preparar_historial 1%positive (py "sistema")
      {| heap := {[ 1%positive := mensajes_ejemplo ++ [pregunta 7] ]};
         mensajes := Some 1%positive |}
    = (Ret h, w', [])
    ∧ heap w' !! h = Some payload
    ∧ head payload = Some {| role := system; content := py "sistema" |}
    ∧ last payload = Some (pregunta 7)
    ∧ 2 ≤ length payload ≤ 11.
Proof.
  apply (X11_history_ends_with_the_last_message (py "sistema") 1%positive
           {| heap := {[ 1%positive := mensajes_ejemplo ++ [pregunta 7] ]};
              mensajes := Some 1%positive |}
           mensajes_ejemplo (pregunta 7)).
  - vm_compute. reflexivity.
  - unfold no_system. cbn. discriminate.
Defined.

Lemma api_calls_inicio (msgs : list Message) (resto : list Event) :
  api_calls (CABECERA ++ [header (py "Configuración"); INFO]
             ++ concat (map dibujar msgs) ++ resto)
  = api_calls resto.
Proof.
  unfold api_calls. rewrite !omap_app.
  fold (api_calls (concat (map dibujar msgs))). by rewrite api_calls_dibujar.
Qed.

Lemma errores_dibujar (msgs : list Message) :
  errores (concat (map dibujar msgs)) = [].
Proof. by induction msgs. Qed.

Lemma errores_inicio (msgs : list Message) (resto : list Event) :
  errores (CABECERA ++ [header (py "Configuración"); INFO]
           ++ concat (map dibujar msgs) ++ resto)
  = errores resto.
Proof.
  unfold errores. rewrite !omap_app.
  fold (errores (concat (map dibujar msgs))). by rewrite errores_dibujar.
Qed.

(** Two equations for the same run give the same outcome, world and
    events, as they stand. *)
Ltac misma_corrida H1 H2 :=
  match type of H1 with
  | ?m = (?o1, ?w1, ?e1) =>
      match type of H2 with
      | m = (?o2, ?w2, ?e2) =>
          assert (o2 = o1) as -> by congruence;
          assert (w2 = w1) as -> by congruence;
          assert (e2 = e1) as -> by congruence
      end
  end.

(** The three ways a run of the script can go. *)
Lemma main_casos
    (lower : str → str) (env : Env) (w w' : World) (o : Outcome unit)
    (ev : list Event) :
  wf w →
  main lower env w = (o, w', ev) →
  (o ≠ Ret tt ∧ w' = w ∧ api_calls ev = [])
  ∨ (o = Ret tt ∧ api_calls ev = [] ∧ errores ev = []
     ∧ stored w' = Some (inicial w)
     ∧ (chat_input env = None ∨ chat_input env = Some []))
  ∨ (o = Ret tt
     ∧ ∃ kb k p,
         json_load env RUTA_ARCHIVO = returns (Some kb)
         ∧ secrets_GROQ_API_KEY env = Some k
         ∧ chat_input env = Some p
         ∧ truthy p = true
         ∧ api_calls ev
           = [peticion (selectbox env)
                (historial lower (Some kb) p
                   (inicial w ++ [{| role := user; content := p |}]))]
         ∧ (stored w' = Some (inicial w ++ [{| role := user; content := p |}])
            ∨ ∃ r, truthy r = true
                   ∧ stored w'
                     = Some (inicial w
                             ++ [{| role := user; content := p |};
                                 {| role := assistant; content := r |}]))).
Proof.
  intros Hwf Hmain.
  pose proof (cargar_base_de_conocimiento_run env RUTA_ARCHIVO w) as Hc.
  destruct (json_load env RUTA_ARCHIVO) as [[[] msg] | [kb |]] eqn:Hjson;
    cbn [class] in Hc.
  1, 2, 5: rewrite (main_sin_base lower env w _ Hc) in Hmain;
           injection Hmain as <- <- <-; by left.
  { rewrite (main_excepcion lower env w _ Hjson eq_refl) in Hmain.
    injection Hmain as <- <- <-. by left. }
  destruct (secrets_GROQ_API_KEY env) as [k |] eqn:Hkey.
  2: { rewrite (main_sin_clave lower env w kb Hjson Hkey) in Hmain.
       injection Hmain as <- <- <-. by left. }
  right.
  assert (∀ w0 ℓ,
            (o, w', ev)
            = (Ret tt, w0,
               CABECERA ++ [header (py "Configuración"); INFO]
               ++ concat (map dibujar (inicial w))) →
            mensajes w0 = Some ℓ →
            heap w0 !! ℓ = Some (inicial w) →
            o = Ret tt ∧ api_calls ev = [] ∧ errores ev = []
            ∧ stored w' = Some (inicial w)) as Hidle.
  { intros w0 ℓ [= -> -> ->] Hm Hℓ. split; [done |].
    split; [exact (api_calls_dibujar _) |].
    split; [exact (errores_dibujar _) |].
    unfold stored. rewrite Hm. cbn. by rewrite Hℓ. }
  destruct (chat_input env) as [p |] eqn:Hchat;
    [destruct (truthy p) eqn:Hp |].
  - right. destruct (main_turno lower env w kb k p Hwf Hjson Hkey Hchat Hp)
      as (w1 & Hwf1 & H).
    assert (∀ resto,
              api_calls
                ((CABECERA ++ [header (py "Configuración"); INFO]
                  ++ concat (map dibujar (inicial w))
                  ++ [chat_message user AVATAR_USER; markdown p;
                      chat_message assistant AVATAR_BOT;
                      spinner (py "TecnoBot está pensando...");
                      api_call {| api_key := k |}
                        (peticion (selectbox env)
                           (historial lower (Some kb) p
                              (inicial w
                               ++ [{| role := user; content := p |}])))])
                 ++ resto)
              = peticion (selectbox env)
                  (historial lower (Some kb) p
                     (inicial w ++ [{| role := user; content := p |}]))
                :: api_calls resto) as Hcalls.
    { intros resto. rewrite <- !app_assoc. by rewrite api_calls_inicio. }
    pose proof (Hcalls []) as Hcalls0. rewrite app_nil_r in Hcalls0.
    destruct (completions_create _ _ _) as [e | [r |]];
      [| destruct (truthy r) eqn:Hr |]; destruct H as [Hmain1 Hst];
      misma_corrida Hmain1 Hmain;
      (split; [done |]); exists kb, k, p; do 4 (split; [done |]).
    2: { split; [by rewrite Hcalls |]. right. exists r. split; [done |].
         by rewrite Hst, <- app_assoc. }
    1: by split; [rewrite Hcalls | left].
    all: by split; [rewrite Hcalls0 | left].
  - left. destruct (main_run lower env w kb k Hwf Hjson Hkey)
      as (ℓ & w0 & Hm & Hℓ & _ & Hmain0).
    rewrite Hchat, Hp, Hmain in Hmain0.
    destruct (Hidle w0 ℓ Hmain0 Hm Hℓ) as (? & ? & ? & ?).
    do 4 (split; [done |]). right. by destruct p.
  - left. destruct (main_run lower env w kb k Hwf Hjson Hkey)
      as (ℓ & w0 & Hm & Hℓ & _ & Hmain0).
    rewrite Hchat, Hmain in Hmain0.
    destruct (Hidle w0 ℓ Hmain0 Hm Hℓ) as (? & ? & ? & ?).
    do 4 (split; [done |]). by left.
Qed.

(** X5: a run sends at most one request (lines 115-137), and a request
    it sends is for the question of this run: it names the selected
    model, the temperature 0.7 and 1024 tokens; its first message is
    the system message, made from the context retrieved for the
    question in the loaded knowledge base; at most ten messages follow,
    none of them a system message, the last one being the question. *)
Theorem X5_one_request_per_run_for_the_question
    (lower : str → str) (env : Env) (w w' : World) (o : Outcome unit)
    (ev : list Event) :
  wf w →
  main lower env w = (o, w', ev) →
  length (api_calls ev) ≤ 1
  ∧ ∀ req,
      req ∈ api_calls ev →
      model req = selectbox env
      ∧ temperature req = QArith_base.Qmake 7 10
      ∧ max_tokens req = 1024%Z
      ∧ ∃ kb p rest,
          json_load env RUTA_ARCHIVO = returns (Some kb)
          ∧ chat_input env = Some p
          ∧ truthy p = true
          ∧ messages req
            = {| role := system;
                 content := prompt_con_contexto
                              (buscar_contexto_relevante lower p (Some kb)) |}
              :: rest
          ∧ Forall no_system rest
          ∧ length rest ≤ 10
          ∧ last rest = Some {| role := user; content := p |}.
Proof.
  intros Hwf Hmain.
  destruct (main_casos lower env w w' o ev Hwf Hmain)
    as [(_ & _ & Hcalls) | [(_ & Hcalls & _) | (_ & kb & k & p & Hjson & _
                                                & Hchat & Hp & Hcalls & _)]].
  1, 2: rewrite Hcalls; split; [cbn; lia |];
        intros req Hreq; by apply elem_of_nil in Hreq.
  rewrite Hcalls. split; [cbn; lia |].
  intros req Hreq. apply list_elem_of_singleton in Hreq as ->.
  do 3 (split; [done |]).
  destruct (historial_forma lower (Some kb) p (inicial w)
              {| role := user; content := p |})
    as (sp & rest & Hh & -> & Hns & Hlen & Hlast); [done |].
  exists kb, p, rest. by rewrite <- Hh.
Qed.

Lemma X5_one_request_per_run_for_the_question_witness :
  length (api_calls (main lower_latin1 env_responde nuevo).2) ≤ 1
  ∧ ∀ req,
      req ∈ api_calls (main lower_latin1 env_responde nuevo).2 →
      model req = selectbox env_responde
      ∧ temperature req = QArith_base.Qmake 7 10
      ∧ max_tokens req = 1024%Z
      ∧ ∃ kb p rest,
          json_load env_responde RUTA_ARCHIVO = returns (Some kb)
          ∧ chat_input env_responde = Some p
          ∧ truthy p = true
          ∧ messages req
            = {| role := system;
                 content := prompt_con_contexto
                              (buscar_contexto_relevante lower_latin1 p
                                 (Some kb)) |}
              :: rest
          ∧ Forall no_system rest
          ∧ length rest ≤ 10
          ∧ last rest = Some {| role := user; content := p |}.
Proof.
  apply (X5_one_request_per_run_for_the_question lower_latin1 env_responde
           nuevo (main lower_latin1 env_responde nuevo).1.2
           (main lower_latin1 env_responde nuevo).1.1).
  - intros ℓ H. discriminate H.
  - by destruct (main lower_latin1 env_responde nuevo) as [[o w'] ev].
Defined.

(** X6: without the API key (lines 98-102) the run shows the header of
    the sidebar and the error, and halts: nothing is stored, nothing is
    sent, whatever the session holds and whatever was typed. *)
Theorem X6_missing_api_key_halts
    (lower : str → str) (env : Env) (w : World) (kb : dict) :
  json_load env RUTA_ARCHIVO = returns (Some kb) →
  secrets_GROQ_API_KEY env = None →
  main lower env w
  = (Stop, w, CABECERA ++ [header (py "Configuración"); error SIN_API_KEY]).
Proof. apply main_sin_clave. Qed.

Lemma X6_missing_api_key_halts_witness :
  main lower_latin1 env_sin_clave w_ejemplo
  = (Stop, w_ejemplo,
     CABECERA ++ [header (py "Configuración"); error SIN_API_KEY]).
Proof.
  apply (X6_missing_api_key_halts lower_latin1 env_sin_clave w_ejemplo
           kb_ejemplo); reflexivity.
Defined.

(** X7: a knowledge file that holds the JSON value [null] parses to
    [None] (lines 38 and 87-88): the loader returns it without a
    message, and the run halts after the title with no error shown,
    the session as it was. *)
Theorem X7_json_null_halts_without_a_message
    (lower : str → str) (env : Env) (w : World) :
  json_load env RUTA_ARCHIVO = returns None →
  cargar_base_de_conocimiento env RUTA_ARCHIVO w = (Ret None, w, [])
  ∧ main lower env w = (Stop, w, CABECERA)
  ∧ errores CABECERA = [].
Proof.
  intros Hjson.
  assert (cargar_base_de_conocimiento env RUTA_ARCHIVO w = (Ret None, w, []))
    as Hc by by rewrite cargar_base_de_conocimiento_run, Hjson.
  split; [done |]. split; [| done].
  by rewrite (main_sin_base lower env w [] Hc), app_nil_r.
Qed.

Lemma X7_json_null_halts_without_a_message_witness :
  cargar_base_de_conocimiento env_json_null RUTA_ARCHIVO w_ejemplo
  = (Ret None, w_ejemplo, [])
  ∧ main lower_latin1 env_json_null w_ejemplo = (Stop, w_ejemplo, CABECERA)
  ∧ errores CABECERA = [].
Proof.
  apply (X7_json_null_halts_without_a_message lower_latin1 env_json_null
           w_ejemplo).
  reflexivity.
Defined.

(** X8: an exception of the loader that is neither of the two it
    handles (lines 39 and 42) goes through the loader and through
    [main]: the run is aborted after the title, with no message of the
    script's own, and the session is as it was. *)
Theorem X8_other_loader_exception_aborts_the_run
    (lower : str → str) (env : Env) (w : World) (e : Exn) :
  json_load env RUTA_ARCHIVO = raises e →
  class e = OtherException →
  cargar_base_de_conocimiento env RUTA_ARCHIVO w = (Raise e, w, [])
  ∧ main lower env w = (Raise e, w, CABECERA).
Proof.
  intros Hjson He. split; [| by apply main_excepcion].
  by rewrite cargar_base_de_conocimiento_run, Hjson, He.
Qed.

Lemma X8_other_loader_exception_aborts_the_run_witness :
  cargar_base_de_conocimiento env_sin_permiso RUTA_ARCHIVO w_ejemplo
  = (Raise PERMISO, w_ejemplo, [])
  ∧ main lower_latin1 env_sin_permiso w_ejemplo
    = (Raise PERMISO, w_ejemplo, CABECERA).
Proof.
  apply (X8_other_loader_exception_aborts_the_run lower_latin1
           env_sin_permiso w_ejemplo PERMISO); reflexivity.
Defined.

(** X9: a run without a question, or with the empty one (line 115),
    only draws the page: it ends normally, sends nothing, shows no
    error, and stores the transcript it started from (the greeting
    alone in a new session); run again on the result, it gives the same
    world and the same page. *)
Theorem X9_run_without_question_only_draws
    (lower : str → str) (env : Env) (w : World) (kb : dict) (k : str) :
  wf w →
  json_load env RUTA_ARCHIVO = returns (Some kb) →
  secrets_GROQ_API_KEY env = Some k →
  chat_input env = None ∨ chat_input env = Some [] →
  ∃ w',
    main lower env w
    = (Ret tt, w',
       CABECERA ++ [header (py "Configuración"); INFO]
       ++ concat (map dibujar (inicial w)))
    ∧ stored w' = Some (inicial w)
    ∧ main lower env w'
      = (Ret tt, w',
         CABECERA ++ [header (py "Configuración"); INFO]
         ++ concat (map dibujar (inicial w))).
Proof.
  intros Hwf Hjson Hkey Hchat.
  destruct (main_run lower env w kb k Hwf Hjson Hkey)
    as (ℓ & w0 & Hm & Hℓ & _ & Hmain).
  assert (stored w0 = Some (inicial w)) as Hst.
  { unfold stored. rewrite Hm. cbn. by rewrite Hℓ. }
  assert (wf w0) as Hwf0.
  { intros ℓ' Hℓ'. rewrite Hm in Hℓ'. injection Hℓ' as <-. by rewrite Hℓ. }
  destruct (main_run lower env w0 kb k Hwf0 Hjson Hkey)
    as (ℓ' & w0' & _ & _ & Hsame & Hmain0).
  destruct (Hsame ℓ Hm) as [_ ->].
  assert (inicial w0 = inicial w) as Hini by (unfold inicial; by rewrite Hst).
  rewrite Hini in Hmain0. exists w0.
  destruct Hchat as [Hchat | Hchat]; rewrite Hchat in Hmain, Hmain0;
    cbn [truthy] in Hmain, Hmain0; done.
Qed.

Lemma X9_run_without_question_only_draws_witness :
  ∃ w',
    main lower_latin1 env_sin_pregunta nuevo
    = (Ret tt, w',
       CABECERA ++ [header (py "Configuración"); INFO]
       ++ concat (map dibujar (inicial nuevo)))
    ∧ stored w' = Some (inicial nuevo)
    ∧ main lower_latin1 env_sin_pregunta w'
      = (Ret tt, w',
         CABECERA ++ [header (py "Configuración"); INFO]
         ++ concat (map dibujar (inicial nuevo))).
Proof.
  apply (X9_run_without_question_only_draws lower_latin1 env_sin_pregunta
           nuevo kb_ejemplo (py "gsk")).
  - intros ℓ H. discriminate H.
  - reflexivity.
  - reflexivity.
  - left. reflexivity.
Defined.

(** X10: the stored transcript only grows, at its end (lines 116 and
    140 are the only writes): after any run, whatever its surroundings
    and however it ends, the transcript is the one before the run
    followed by at most two messages, of the user or of the assistant. *)
Theorem X10_transcript_is_append_only
    (lower : str → str) (env : Env) (w w' : World) (o : Outcome unit)
    (ev : list Event) (msgs : list Message) :
  wf w →
  stored w = Some msgs →
  main lower env w = (o, w', ev) →
  ∃ resto,
    stored w' = Some (msgs ++ resto)
    ∧ length resto ≤ 2
    ∧ Forall user_o_assistant resto.
Proof.
  intros Hwf Hst Hmain.
  assert (inicial w = msgs) as Hini by (unfold inicial; by rewrite Hst).
  destruct (main_casos lower env w w' o ev Hwf Hmain)
    as [(_ & -> & _) | [(_ & _ & _ & Hst' & _)
                        | (_ & kb & k & p & _ & _ & _ & _ & _
                           & [Hst' | (r & _ & Hst')])]];
    subst msgs.
  - exists []. rewrite app_nil_r. split; [done |]. split; [cbn; lia | done].
  - exists []. rewrite app_nil_r. split; [done |]. split; [cbn; lia | done].
  - exists [{| role := user; content := p |}]. split; [done |].
    split; [cbn; lia |]. constructor; [by left | constructor].
  - exists [{| role := user; content := p |};
            {| role := assistant; content := r |}]. split; [done |].
    split; [cbn; lia |].
    constructor; [by left |]. constructor; [by right | constructor].
Qed.

Lemma X10_transcript_is_append_only_witness :
  ∃ resto,
    stored (main lower_latin1 env_responde w_ejemplo).1.2
    = Some (mensajes_ejemplo ++ resto)
    ∧ length resto ≤ 2
    ∧ Forall user_o_assistant resto.
Proof.
  apply (X10_transcript_is_append_only lower_latin1 env_responde w_ejemplo
           (main lower_latin1 env_responde w_ejemplo).1.2
           (main lower_latin1 env_responde w_ejemplo).1.1
           (main lower_latin1 env_responde w_ejemplo).2).
  - intros ℓ [= <-]. exists mensajes_ejemplo. vm_compute. reflexivity.
  - vm_compute. reflexivity.
  - by destruct (main lower_latin1 env_responde w_ejemplo) as [[o w'] ev].
Defined.

(** X12: a reply without text (lines 75 and 138): when the call to the
    endpoint returns no content, or the empty string, the turn ends
    without a trace: the run ends normally, the question is stored and
    no reply after it, no error message is shown, and the request is
    the last thing the run did. *)
Theorem X12_reply_without_text_ends_silently
    (lower : str → str) (env : Env) (w : World) (kb : dict) (k p : str) :
  wf w →
  json_load env RUTA_ARCHIVO = returns (Some kb) →
  secrets_GROQ_API_KEY env = Some k →
  chat_input env = Some p →
  truthy p = true →
  completions_create env {| api_key := k |}
    (peticion (selectbox env)
       (historial lower (Some kb) p
          (inicial w ++ [{| role := user; content := p |}])))
  = returns None
  ∨ completions_create env {| api_key := k |}
      (peticion (selectbox env)
         (historial lower (Some kb) p
            (inicial w ++ [{| role := user; content := p |}])))
    = returns (Some []) →
  ∃ w' ev,
    main lower env w = (Ret tt, w', ev)
    ∧ stored w' = Some (inicial w ++ [{| role := user; content := p |}])
    ∧ errores ev = []
    ∧ last ev
      = Some (api_call {| api_key := k |}
                (peticion (selectbox env)
                   (historial lower (Some kb) p
                      (inicial w ++ [{| role := user; content := p |}])))).
Proof.
  intros Hwf Hjson Hkey Hchat Hp Hreply.
  destruct (main_turno lower env w kb k p Hwf Hjson Hkey Hchat Hp)
    as (w' & _ & H).
  assert (∃ ev,
            main lower env w = (Ret tt, w', ev)
            ∧ stored w' = Some (inicial w ++ [{| role := user; content := p |}])
            ∧ ev = CABECERA ++ [header (py "Configuración"); INFO]
                   ++ concat (map dibujar (inicial w))
                   ++ [chat_message user AVATAR_USER; markdown p;
                       chat_message assistant AVATAR_BOT;
                       spinner (py "TecnoBot está pensando...");
                       api_call {| api_key := k |}
                         (peticion (selectbox env)
                            (historial lower (Some kb) p
                               (inicial w
                                ++ [{| role := user; content := p |}])))])
    as (ev & Hmain & Hst & ->).
  { destruct Hreply as [Hr | Hr]; rewrite Hr in H; cbn [truthy] in H;
      destruct H as [Hmain Hst]; eexists; by split; [exact Hmain |]. }
  eexists w', _. split; [exact Hmain |]. split; [done |].
  split; [by rewrite errores_inicio |].
  by rewrite !last_app.
Qed.

Lemma X12_reply_without_text_ends_silently_witness :
  ∃ w' ev,
    main lower_latin1 env_responde_vacio nuevo = (Ret tt, w', ev)
    ∧ stored w'
      = Some (inicial nuevo ++ [{| role := user; content := py "hola" |}])
    ∧ errores ev = []
    ∧ last ev
      = Some (api_call {| api_key := py "gsk" |}
                (peticion (selectbox env_responde_vacio)
                   (historial lower_latin1 (Some kb_ejemplo) (py "hola")
                      (inicial nuevo
                       ++ [{| role := user; content := py "hola" |}])))).
Proof.
  apply (X12_reply_without_text_ends_silently lower_latin1
           env_responde_vacio nuevo kb_ejemplo (py "gsk") (py "hola")).
  - intros ℓ H. discriminate H.
  - reflexivity.
  - reflexivity.
  - reflexivity.
  - vm_compute. reflexivity.
  - right. reflexivity.
Defined.



(** What holds of every world a session can reach. *)
Lemma reachable_inv (lower : str → str) (w : World) :
  reachable lower w →
  wf w ∧ Forall no_system (inicial w).
Proof.
  intros Hreach.
  assert (wf w ∧ ∀ msgs, stored w = Some msgs →
            ∃ resto, msgs = SALUDO :: resto ∧ Forall user_o_assistant resto)
    as [Hwf Hinv].
  { induction Hreach as [| w env o w' ev _ [Hwf IH] Hmain].
    - split; [by intros ℓ H | by intros msgs H].
    - destruct (main_preserva lower env w w' o ev Hwf Hmain)
        as [Hwf' [Heq | (resto & Hst' & Hresto)]].
      + split; [done |]. intros msgs Hst. apply IH. by rewrite <- Heq.
      + split; [done |]. intros msgs Hst. rewrite Hst' in Hst.
        injection Hst as <-. unfold inicial.
        destruct (stored w) as [msgs0 |]; cbn.
        * destruct (IH msgs0 eq_refl) as (resto0 & -> & Hresto0).
          exists (resto0 ++ resto). split; [done |]. by apply Forall_app.
        * by exists resto. }
  split; [done |]. unfold inicial.
  destruct (stored w) as [msgs |]; cbn.
  - destruct (Hinv msgs eq_refl) as (resto & -> & Hresto).
    constructor; [done |].
    eapply Forall_impl; [exact Hresto | apply user_o_assistant_no_system].
  - by constructor.
Qed.

(** X14: in a session as it can be reached by runs of the script, the
    filter of line 131 removes nothing, so what a run sends after the
    system message is the last ten messages of the whole transcript,
    the question included (lines 116 and 128-132); the greeting and the
    oldest exchanges are the ones left out of a long conversation. *)
Theorem X14_reachable_session_sends_last_ten_of_transcript
    (lower : str → str) (env : Env) (w w' : World) (o : Outcome unit)
    (ev : list Event) :
  reachable lower w →
  main lower env w = (o, w', ev) →
  api_calls ev = []
  ∨ ∃ p req,
      chat_input env = Some p
      ∧ api_calls ev = [req]
      ∧ tail (messages req)
        = slice_last 10 (inicial w ++ [{| role := user; content := p |}]).
Proof.
  intros Hreach Hmain.
  destruct (reachable_inv lower w Hreach) as [Hwf Hns].
  destruct (main_casos lower env w w' o ev Hwf Hmain)
    as [(_ & _ & Hcalls) | [(_ & Hcalls & _) | (_ & kb & k & p & _ & _
                                                & Hchat & _ & Hcalls & _)]].
  1, 2: by left.
  right. eexists p, _. split; [done |]. split; [exact Hcalls |].
  cbn [peticion messages historial tail].
  rewrite filter_no_system_id; [done |].
  apply Forall_app. split; [done |]. by constructor.
Qed.

Lemma X14_reachable_session_sends_last_ten_of_transcript_witness :
  api_calls (main lower_latin1 env_responde nuevo).2 = []
  ∨ ∃ p req,
      chat_input env_responde = Some p
      ∧ api_calls (main lower_latin1 env_responde nuevo).2 = [req]
      ∧ tail (messages req)
        = slice_last 10 (inicial nuevo ++ [{| role := user; content := p |}]).
Proof.
  apply (X14_reachable_session_sends_last_ten_of_transcript lower_latin1
           env_responde nuevo (main lower_latin1 env_responde nuevo).1.2
           (main lower_latin1 env_responde nuevo).1.1).
  - apply reachable_nuevo.
  - by destruct (main lower_latin1 env_responde nuevo) as [[o w'] ev].
Defined.
